(** * The analytics dispatcher of the Lightdash backend

    A shallow embedding of [LightdashAnalytics] (identify, track, group,
    wrapEvent) and of the request classifiers [getContextFromHeader] and
    [getContextFromQueryOrHeader], followed by the properties the
    specification states about them.

    JavaScript objects are finite maps from property names to values,
    object spread is map union, and the calls that leave the dispatcher
    (delivery SDK, logger, console) are recorded in a trace that every
    operation threads through. A promise that rejects is a computation
    that throws, and [await] is sequencing. Strings are ASCII. *)

From Stdlib Require Import Ascii.
From stdpp Require Import gmap strings list fin_maps pretty.

Set Warnings "-register-all,-notation-for-abbreviation,-clear-no-such-hyp".

Open Scope string_scope.
Open Scope list_scope.

(** ** JavaScript values *)

Module JS.

(** Values that flow through the dispatcher. Numbers are only ever copied,
    so an integer stands for them. [VError name message] is an instance of
    an Error class: [message] is an own property that is not enumerable. *)
Inductive value :=
| VUndef
| VNull
| VBool (b : bool)
| VNum (n : Z)
| VStr (s : string)
| VError (name message : string)
| VObj (o : gmap string value).

Notation obj := (gmap string value).

(** Outcome of an evaluation: a value, or a thrown value. *)
Inductive result (A : Type) :=
| Ok (a : A)
| Throw (e : value).
Arguments Ok {A} a.
Arguments Throw {A} e.

(** ToBoolean. *)
Definition truthy (v : value) : bool :=
  match v with
  | VUndef | VNull => false
  | VBool b => b
  | VNum n => negb (n =? 0)%Z
  | VStr s => negb (String.eqb s "")
  | VError _ _ | VObj _ => true
  end.

(** ToString, as a template literal applies it. Numbers are printed in
    plain decimal, as JavaScript prints integers below 1e21. *)
Definition to_string (v : value) : string :=
  match v with
  | VUndef => "undefined"
  | VNull => "null"
  | VBool true => "true"
  | VBool false => "false"
  | VNum n => pretty n
  | VStr s => s
  | VError name message =>
      if String.eqb message "" then name
      else if String.eqb name "" then message
      else name +:+ ": " +:+ message
  | VObj _ => "[object Object]"
  end.

Definition type_error (message : string) : value := VError "TypeError" message.

(** [o.k] on an object: a missing property reads as undefined. *)
Definition get (o : obj) (k : string) : value := default VUndef (o !! k).

(** [v.k] on any value: reading a property of undefined or null throws. *)
Definition get_prop (v : value) (k : string) : result value :=
  match v with
  | VUndef =>
      Throw (type_error ("Cannot read properties of undefined (reading '" +:+ k +:+ "')"))
  | VNull =>
      Throw (type_error ("Cannot read properties of null (reading '" +:+ k +:+ "')"))
  | VObj o => Ok (get o k)
  | VError name message =>
      Ok (if String.eqb k "message" then VStr message
          else if String.eqb k "name" then VStr name
          else VUndef)
  | VBool _ | VNum _ | VStr _ => Ok VUndef
  end.

(** The own enumerable properties [{...v}] copies: those of an object, the
    indexed characters of a string, none for any other value. *)
Definition spread (v : value) : obj :=
  match v with
  | VObj o => o
  | VStr s =>
      list_to_map
        (imap (fun i c => (pretty i, VStr (String c EmptyString)))
              (String.list_ascii_of_string s))
  | _ => ∅
  end.

End JS.

Import JS.

(** ** Effects

    Everything the dispatcher does to the outside is an entry of a trace:
    a call of one of the delivery SDK's primitives (the methods of the
    [Analytics] superclass), a line handed to the logger, a console
    warning. *)

Inductive sdk_call :=
| SdkIdentify (message : obj)
| SdkTrack (message : obj)
| SdkGroup (message : obj).

Inductive effect :=
| Sdk (call : sdk_call)
| LoggerError (line : string)
| ConsoleWarn (args : list value).

Notation trace := (list effect).

(** A computation reads the trace so far and returns its outcome and the
    extended trace. *)
Definition M (A : Type) : Type := trace → result A * trace.

#[export] Instance M_ret : MRet M := fun A a t => (Ok a, t).

#[export] Instance M_bind : MBind M := fun A B f m t =>
  match m t with
  | (Ok a, t') => f a t'
  | (Throw e, t') => (Throw e, t')
  end.

Definition throw {A} (e : value) : M A := fun t => (Throw e, t).

Definition lift {A} (r : result A) : M A := fun t => (r, t).

Definition emit (e : effect) : M unit := fun t => (Ok tt, t ++ [e]).

(** [try { body } catch (e) { handler }] *)
Definition try_catch {A} (body : M A) (handler : value → M A) : M A := fun t =>
  match body t with
  | (Ok a, t') => (Ok a, t')
  | (Throw e, t') => handler e t'
  end.

(** ** The dispatcher: class [LightdashAnalytics] *)

(** The part of [LightdashConfig] the dispatcher reads. *)
Record Rudder := { writeKey : value }.

Record LightdashConfig := {
  mode : string;
  siteUrl : value;
  rudder : Rudder;
}.

(** [this.lightdashContext.app] *)
Record App := {
  namespace : string;
  name : string;
  version : string;
  app_mode : string;
  app_siteUrl : value;
  installId : string;
  installType : string;
}.

Record LightdashAnalytics := {
  lightdashConfig : LightdashConfig;
  lightdashContext_app : App;
}.

Definition app_obj (a : App) : obj :=
  {[ "namespace" := VStr (namespace a);
     "name" := VStr (name a);
     "version" := VStr (version a);
     "mode" := VStr (app_mode a);
     "siteUrl" := app_siteUrl a;
     "installId" := VStr (installId a);
     "installType" := VStr (installType a) ]}.

(** [{ ...this.lightdashContext }]: the context object has the single
    property [app]. *)
Definition lightdashContext (this : LightdashAnalytics) : obj :=
  {[ "app" := VObj (app_obj (lightdashContext_app this)) ]}.

(** [a || b] on an environment variable that may be unset. *)
Definition env_or (v : option string) (fallback : string) : string :=
  match v with
  | Some s => if String.eqb s "" then fallback else s
  | None => fallback
  end.

Section Constructor.
(** Constants of the code base that the constructor imports. *)
Variable VERSION : string.
Variable CLOUD_BETA : string.            (* LightdashMode.CLOUD_BETA *)
Variable INSTALL_TYPE_UNKNOWN : string.  (* LightdashInstallType.UNKNOWN *)

(** [new LightdashAnalytics({ lightdashConfig, ... })], given the two
    environment variables it reads and the identifier [uuidv4()] returns
    when it is called. *)
Definition new (config : LightdashConfig)
    (LIGHTDASH_INSTALL_ID LIGHTDASH_INSTALL_TYPE : option string)
    (uuid : string) : LightdashAnalytics :=
  {| lightdashConfig := config;
     lightdashContext_app :=
       {| namespace := "lightdash";
          name := "lightdash_server";
          version := VERSION;
          app_mode := mode config;
          app_siteUrl :=
            if String.eqb (mode config) CLOUD_BETA then siteUrl config
            else VNull;
          installId := env_or LIGHTDASH_INSTALL_ID uuid;
          installType := env_or LIGHTDASH_INSTALL_TYPE INSTALL_TYPE_UNKNOWN |} |}.
End Constructor.

Definition isUserUpdatedEvent (event : obj) : bool :=
  match get event "event" with
  | VStr s => String.eqb s "user.updated"
  | _ => false
  end.

Definition isUserVerifiedEvent (event : obj) : bool :=
  match get event "event" with
  | VStr s => String.eqb s "user.verified"
  | _ => false
  end.

Section Dispatcher.
(** The delivery SDK is an external collaborator: given the trace so far
    and a call, it accepts the call ([None]) or fails with a thrown value. *)
Variable sdk : trace → sdk_call → option value.

Definition super (call : sdk_call) : M unit := fun t =>
  match sdk t call with
  | None => (Ok tt, t ++ [Sdk call])
  | Some e => (Throw e, t ++ [Sdk call])
  end.

Variable this : LightdashAnalytics.

(** [!this.lightdashConfig.rudder.writeKey] *)
Definition tracking_disabled : bool :=
  negb (truthy (writeKey (rudder (lightdashConfig this)))).

(** [`${this.lightdashContext.app.name}.${payload.event}`] *)
Definition namespaced_event (payload : obj) : value :=
  VStr (name (lightdashContext_app this) +:+ "." +:+ to_string (get payload "event")).

Definition identify (payload : obj) : M unit :=
  if tracking_disabled then mret tt
  else super (SdkIdentify (<["context" := VObj (lightdashContext this)]> payload)).

Definition track (payload : obj) : M unit :=
  if tracking_disabled then mret tt
  else if isUserUpdatedEvent payload then
    let properties := get payload "properties" in
    is_tracking_anonymized ← lift (get_prop properties "isTrackingAnonymized");
    is_marketing_opted_in ← lift (get_prop properties "isMarketingOptedIn");
    job_title ← lift (get_prop properties "jobTitle");
    is_setup_complete ← lift (get_prop properties "isSetupComplete");
    let basicEventProperties : obj :=
      {[ "is_tracking_anonymized" := is_tracking_anonymized;
         "is_marketing_opted_in" := is_marketing_opted_in;
         "job_title" := job_title;
         "is_setup_complete" := is_setup_complete ]} in
    anonymized ← lift (get_prop properties "isTrackingAnonymized");
    sent ← (if truthy anonymized then mret basicEventProperties
            else
              email ← lift (get_prop properties "email");
              first_name ← lift (get_prop properties "firstName");
              last_name ← lift (get_prop properties "lastName");
              mret (<["last_name" := last_name]>
                      (<["first_name" := first_name]>
                         (<["email" := email]> basicEventProperties))));
    super (SdkTrack
             (<["properties" := VObj sent]>
                (<["context" := VObj (lightdashContext this)]>
                   (<["event" := namespaced_event payload]> payload))))
  else if isUserVerifiedEvent payload then
    let properties := get payload "properties" in
    anonymized ← lift (get_prop properties "isTrackingAnonymized");
    email ← (if truthy anonymized then mret VUndef
             else lift (get_prop properties "email"));
    super (SdkTrack
             (<["properties" := VObj (<["email" := email]> (spread properties))]>
                (<["context" := VObj (lightdashContext this)]>
                   (<["event" := namespaced_event payload]> payload))))
  else
    super (SdkTrack
             (<["context" := VObj (lightdashContext this)]>
                (<["event" := namespaced_event payload]> payload))).

Definition group (payload : obj) : M unit :=
  if tracking_disabled then mret tt
  else super (SdkGroup (<["context" := VObj (lightdashContext this)]> payload)).

(** [`${payload.event}.started`] and its siblings. *)
Definition suffixed_event (payload : obj) (suffix : string) : value :=
  VStr (to_string (get payload "event") +:+ suffix).

Definition wrapEvent (payload : obj) (func : M value)
    (extraProperties : option (value → M value)) : M value :=
  try_catch
    (track (<["event" := suffixed_event payload ".started"]> payload);;
     results ← func;
     properties ← match extraProperties with
                  | Some f => f results
                  | None => mret (VObj ∅)
                  end;
     track (<["properties" :=
                VObj (spread properties ∪ spread (get payload "properties"))]>
              (<["event" := suffixed_event payload ".completed"]> payload));;
     mret results)
    (fun e =>
       message ← lift (get_prop e "message");
       track (<["properties" :=
                  VObj (<["error" := message]> (spread (get payload "properties")))]>
                (<["event" := suffixed_event payload ".error"]> payload));;
       emit (LoggerError ("Error in scheduler task: " +:+ to_string e));;
       throw e).
End Dispatcher.

(** ** Request classification *)

(** ASCII letters of [String.prototype.toLowerCase]. *)
Definition lower_ascii (c : ascii) : ascii :=
  let n := nat_of_ascii c in
  if (65 <=? n)%nat && (n <=? 90)%nat then ascii_of_nat (n + 32) else c.

Fixpoint toLowerCase (s : string) : string :=
  match s with
  | EmptyString => EmptyString
  | String c s' => String (lower_ascii c) (toLowerCase s')
  end.

(** A parsed query parameter: a string, a list, or a nested object. *)
Inductive query_value :=
| QString (s : string)
| QArray (items : list string)
| QObject (fields : gmap string string).

Record Request := {
  header : string → option string;      (* req.header(name) *)
  query : gmap string query_value;      (* req.query *)
}.

Section Context.
(** Declarations imported from the common package. *)
Variable LightdashRequestMethodHeader : string.
Variable getRequestMethod : option string → string.
Variables RequestMethod_CLI RequestMethod_CLI_CI RequestMethod_UNKNOWN : string.
(** [Object.entries(QueryExecutionContext)], a string enum. *)
Variable QueryExecutionContext : list (string * string).

(** [QueryExecutionContext.KEY] *)
Definition enum_member (key : string) : option string :=
  snd <$> find (fun kv => String.eqb (fst kv) key) QueryExecutionContext.

Definition getContextFromHeader (req : Request) : option string :=
  let method := getRequestMethod (header req LightdashRequestMethodHeader) in
  if String.eqb method RequestMethod_CLI then enum_member "CLI"
  else if String.eqb method RequestMethod_CLI_CI then enum_member "CLI"
  else if String.eqb method RequestMethod_UNKNOWN then enum_member "API"
  else None.

(** The [for] loop: the first enum value equal to [context] up to case. *)
Fixpoint match_context (entries : list (string * string)) (context : string)
    : option string :=
  match entries with
  | [] => None
  | (key, value) :: rest =>
      if String.eqb (toLowerCase value) (toLowerCase context) then Some value
      else match_context rest context
  end.

Definition getContextFromQueryOrHeader (req : Request) : M (option string) :=
  let context : option string :=
    match query req !! "context" with
    | Some (QString s) => Some s
    | _ => None
    end in
  match context with
  | Some c =>
      if negb (String.eqb c "") then
        match match_context QueryExecutionContext c with
        | Some value => mret (Some value)
        | None =>
            emit (ConsoleWarn [VStr "Invalid query execution context"; VStr c]);;
            mret (getContextFromHeader req)
        end
      else mret (getContextFromHeader req)
  | None => mret (getContextFromHeader req)
  end.
End Context.

(** The console warnings written along a trace. *)
Definition warnings (t : trace) : list (list value) :=
  omap (fun e => match e with ConsoleWarn args => Some args | _ => None end) t.

(** ** Observations on traces *)

(** The records handed to the SDK's [track] primitive along a trace. *)
Definition track_messages (t : trace) : list obj :=
  omap (fun e => match e with Sdk (SdkTrack m) => Some m | _ => None end) t.

(** What a computation started on trace [t] forwards to the SDK's [track]. *)
Definition forwarded {A} (m : M A) (t : trace) : list obj :=
  track_messages (drop (length t) (m t).2).

Definition nullish (v : value) : bool :=
  match v with
  | VUndef | VNull => true
  | _ => false
  end.

(** The name under which a lifecycle event of [wrapEvent] reaches the SDK:
    the application name, the base event, the suffix. *)
Definition lifecycle_name (this : LightdashAnalytics) (payload : obj)
    (suffix : string) : string :=
  name (lightdashContext_app this) +:+ "." +:+ to_string (get payload "event") +:+ suffix.

(** The event names of the records forwarded along a trace, and the lines
    handed to the logger. *)
Definition event_names (t : trace) : list value :=
  (fun m => get m "event") <$> track_messages t.


Definition basic_keys : gset string :=
  {[ "is_tracking_anonymized"; "is_marketing_opted_in"; "job_title"; "is_setup_complete" ]}.

Definition identity_keys : gset string :=
  {[ "email"; "first_name"; "last_name" ]}.

(** ** Sample inputs

    Concrete instances, records and collaborators on which the statements
    below are exercised. *)

Module Sample.
Definition config (key : value) : LightdashConfig :=
  {| mode := "default";
     siteUrl := VStr "https://lightdash.example";
     rudder := {| writeKey := key |} |}.

(** A dispatcher with a write key, and one without. *)
Definition enabled : LightdashAnalytics :=
  new "0.1484.5" "cloud_beta" "unknown" (config (VStr "write-key")) None None
      "3f2c9a52-6a0e-4c55-9d42-0d7c1f3b8e11".

Definition disabled : LightdashAnalytics :=
  new "0.1484.5" "cloud_beta" "unknown" (config VUndef) None None
      "3f2c9a52-6a0e-4c55-9d42-0d7c1f3b8e11".

(** An SDK that accepts every call. *)
Definition sdk_accepting : trace → sdk_call → option value :=
  fun _ _ => None.

(** An SDK whose [track] fails with [e] on the event called [event]. *)
Definition sdk_failing (event : string) (e : value)
    : trace → sdk_call → option value :=
  fun _ call =>
    match call with
    | SdkTrack message =>
        match get message "event" with
        | VStr s => if String.eqb s event then Some e else None
        | _ => None
        end
    | _ => None
    end.

Definition user_properties (anonymized : bool) : obj :=
  {[ "isTrackingAnonymized" := VBool anonymized;
     "email" := VStr "ada@example.com";
     "firstName" := VStr "Ada";
     "lastName" := VStr "Lovelace";
     "isMarketingOptedIn" := VBool true;
     "isSetupComplete" := VBool true;
     "jobTitle" := VStr "Analyst";
     "updatedUserId" := VStr "user-1";
     "organizationId" := VStr "org-1";
     "context" := VStr "update_self" ]}.

Definition user_updated (anonymized : bool) : obj :=
  {[ "event" := VStr "user.updated";
     "userId" := VStr "user-1";
     "properties" := VObj (user_properties anonymized) ]}.

Definition verified_properties (anonymized : bool) : obj :=
  {[ "isTrackingAnonymized" := VBool anonymized;
     "email" := VStr "ada@example.com";
     "location" := VStr "settings" ]}.

Definition user_verified (anonymized : bool) : obj :=
  {[ "event" := VStr "user.verified";
     "userId" := VStr "user-1";
     "properties" := VObj (verified_properties anonymized) ]}.

Definition password_updated : obj :=
  {[ "event" := VStr "password.updated"; "userId" := VStr "user-1" ]}.

Definition get_views : obj :=
  {[ "event" := VStr "semantic_layer.get_views";
     "userId" := VStr "user-1";
     "properties" :=
       VObj {[ "organizationId" := VStr "org-1"; "projectId" := VStr "proj-1" ]} ]}.

Definition identity : obj :=
  {[ "userId" := VStr "user-1";
     "traits" := VObj {[ "is_tracking_anonymized" := VBool false ]} ]}.

Definition membership : obj :=
  {[ "userId" := VStr "user-1";
     "groupId" := VStr "org-1";
     "traits" := VObj {[ "name" := VStr "Acme" ]} ]}.

Definition boom : value := VError "Error" "boom".

(** Wrapped operations: one resolves with a list of two views, one
    rejects with [e]; both leave a line in the log when they run. *)
Definition views : value :=
  VObj {[ "0" := VStr "orders"; "1" := VStr "customers"; "length" := VNum 2 ]}.

Definition resolving : M value :=
  emit (LoggerError "func ran");; mret views.

Definition rejecting (e : value) : M value :=
  emit (LoggerError "func ran");; throw e.

(** [extraProperties] callbacks: one counts the views, one fails. *)
Definition count_views (r : value) : M value :=
  viewsCount ← lift (get_prop r "length");
  mret (VObj {[ "viewsCount" := viewsCount ]}).

Definition failing_callback (r : value) : M value := throw boom.

(** A string enum with the two members the header classifier reads. *)
Definition contexts : list (string * string) :=
  [("DASHBOARD", "dashboardView"); ("CLI", "cli"); ("API", "api")].

Definition request (context : option query_value) (method : option string)
    : Request :=
  {| header := fun h =>
       if String.eqb h "Lightdash-Request-Method" then method else None;
     query := match context with
              | Some q => {[ "context" := q ]}
              | None => ∅
              end |}.

(** A stand-in for the imported [getRequestMethod]: a known method name,
    or UNKNOWN. *)
Definition request_method (h : option string) : string :=
  match h with
  | Some s =>
      if String.eqb s "CLI" then "CLI"
      else if String.eqb s "CLI_CI" then "CLI_CI"
      else if String.eqb s "WEB_APP" then "WEB_APP"
      else "UNKNOWN"
  | None => "UNKNOWN"
  end.
End Sample.

(** ** The rest of the module *)

(** [parseAnalyticsLimit]: the download limit of a results request, as the
    label the download events carry. The [switch] compares with [===]. *)
Definition parseAnalyticsLimit (limit : value) : string :=
  match limit with
  | VStr s =>
      if String.eqb s "all" then "all"
      else if String.eqb s "table" then "results"
      else "custom"
  | VNull => "all"
  | VUndef => "results"
  | _ => "custom"
  end.

(** [static anonymousId = process.env.LIGHTDASH_INSTALL_ID || uuidv4()],
    given the environment variable and the identifier this call of
    [uuidv4] returns. *)
Definition anonymousId (LIGHTDASH_INSTALL_ID : option string) (uuid : string)
    : string :=
  env_or LIGHTDASH_INSTALL_ID uuid.

(** ** Further observations *)

(** The record an SDK call carries. *)
Definition call_message (call : sdk_call) : obj :=
  match call with
  | SdkIdentify message | SdkTrack message | SdkGroup message => message
  end.

(** The SDK calls a computation started on trace [t] issues. *)
Definition issued {A} (m : M A) (t : trace) : list sdk_call :=
  omap (fun e => match e with Sdk call => Some call | _ => None end)
       (drop (length t) (m t).2).

(** Further sample inputs. *)
Module Fixture.
(** An SDK that fails every call with [e]. *)
Definition sdk_rejecting (e : value) : trace → sdk_call → option value :=
  fun _ _ => Some e.

Definition timeout : value := VError "Error" "socket hang up".

(** Identity traits of a user who opted for anonymized tracking. *)
Definition anonymized_identity : obj :=
  {[ "userId" := VStr "user-1";
     "traits" :=
       VObj {[ "email" := VStr "ada@example.com";
               "first_name" := VStr "Ada";
               "is_tracking_anonymized" := VBool true ]} ]}.

(** A [user.updated] record without a property bag. *)
Definition bare_user_updated : obj :=
  {[ "event" := VStr "user.updated"; "userId" := VStr "user-1" ]}.

(** A lifecycle payload whose property bag already has [viewsCount] and
    [error]. *)
Definition get_views_with_count : obj :=
  {[ "event" := VStr "semantic_layer.get_views";
     "userId" := VStr "user-1";
     "properties" :=
       VObj {[ "organizationId" := VStr "org-1";
               "viewsCount" := VNum 0;
               "error" := VStr "stale" ]} ]}.

(** A dispatcher of a cloud beta instance with its install id set. *)
Definition cloud : LightdashAnalytics :=
  new "0.1484.5" "cloud_beta" "unknown"
      {| mode := "cloud_beta";
         siteUrl := VStr "https://app.lightdash.cloud";
         rudder := {| writeKey := VStr "write-key" |} |}
      (Some "install-42") (Some "heroku")
      "3f2c9a52-6a0e-4c55-9d42-0d7c1f3b8e11".
End Fixture.

(** * Properties *)

(** ** The embedding on concrete inputs *)

Example constructed_context :
  lightdashContext Sample.enabled =
    {[ "app" := VObj {[ "namespace" := VStr "lightdash";
                        "name" := VStr "lightdash_server";
                        "version" := VStr "0.1484.5";
                        "mode" := VStr "default";
                        "siteUrl" := VNull;
                        "installId" := VStr "3f2c9a52-6a0e-4c55-9d42-0d7c1f3b8e11";
                        "installType" := VStr "unknown" ]} ]}.
Proof. by vm_compute. Qed.

Example identify_enabled :
  identify Sample.sdk_accepting Sample.enabled Sample.identity [] =
    (Ok tt,
     [Sdk (SdkIdentify
             (<["context" := VObj (lightdashContext Sample.enabled)]> Sample.identity))]).
Proof. reflexivity. Qed.

Example group_enabled :
  group Sample.sdk_accepting Sample.enabled Sample.membership [] =
    (Ok tt,
     [Sdk (SdkGroup
             (<["context" := VObj (lightdashContext Sample.enabled)]> Sample.membership))]).
Proof. reflexivity. Qed.

Example track_password_updated :
  track Sample.sdk_accepting Sample.enabled Sample.password_updated [] =
    (Ok tt,
     [Sdk (SdkTrack
             {[ "event" := VStr "lightdash_server.password.updated";
                "userId" := VStr "user-1";
                "context" := VObj (lightdashContext Sample.enabled) ]})]).
Proof. by vm_compute. Qed.

Example track_user_updated_anonymized :
  (fun m => get m "properties")
    <$> forwarded (track Sample.sdk_accepting Sample.enabled (Sample.user_updated true)) []
  = [VObj {[ "is_tracking_anonymized" := VBool true;
             "is_marketing_opted_in" := VBool true;
             "job_title" := VStr "Analyst";
             "is_setup_complete" := VBool true ]}].
Proof. by vm_compute. Qed.

Example track_user_verified_identified :
  (fun m => get m "properties")
    <$> forwarded (track Sample.sdk_accepting Sample.enabled (Sample.user_verified false)) []
  = [VObj {[ "isTrackingAnonymized" := VBool false;
             "email" := VStr "ada@example.com";
             "location" := VStr "settings" ]}].
Proof. by vm_compute. Qed.

Example track_user_updated_without_properties :
  track Sample.sdk_accepting Sample.enabled {[ "event" := VStr "user.updated" ]} [] =
    (Throw (type_error
              "Cannot read properties of undefined (reading 'isTrackingAnonymized')"),
     []).
Proof. reflexivity. Qed.

Example wrapEvent_completed :
  let out :=
    wrapEvent Sample.sdk_accepting Sample.enabled Sample.get_views
      Sample.resolving (Some Sample.count_views) [] in
  out.1 = Ok Sample.views ∧
  event_names out.2 =
    [VStr "lightdash_server.semantic_layer.get_views.started";
     VStr "lightdash_server.semantic_layer.get_views.completed"] ∧
  (fun m => get m "properties") <$> track_messages out.2 =
    [VObj {[ "organizationId" := VStr "org-1"; "projectId" := VStr "proj-1" ]};
     VObj {[ "organizationId" := VStr "org-1"; "projectId" := VStr "proj-1";
             "viewsCount" := VNum 2 ]}].
Proof. repeat split; by vm_compute. Qed.

Example to_lower_case : toLowerCase "Cli_CI-9" = "cli_ci-9".
Proof. reflexivity. Qed.

Example context_from_header :
  let classify method :=
    getContextFromHeader "Lightdash-Request-Method" Sample.request_method
      "CLI" "CLI_CI" "UNKNOWN" Sample.contexts (Sample.request None method) in
  classify (Some "CLI") = Some "cli" ∧
  classify (Some "CLI_CI") = Some "cli" ∧
  classify None = Some "api" ∧
  classify (Some "WEB_APP") = None.
Proof. repeat split. Qed.

Section TrackFacts.
Variable sdk : trace → sdk_call → option value.
Variable this : LightdashAnalytics.

Lemma get_lookup (o : obj) k v : o !! k = Some v → get o k = v.
Proof. intros E. unfold get. by rewrite E. Qed.

Lemma super_trace call t : (super sdk call t).2 = t ++ [Sdk call].
Proof. unfold super. by destruct (sdk t call). Qed.

Lemma forwarded_unchanged {A} (m : M A) t : (m t).2 = t → forwarded m t = [].
Proof. intros E. unfold forwarded. by rewrite E, drop_all. Qed.

Lemma forwarded_one {A} (m : M A) t message :
  (m t).2 = t ++ [Sdk (SdkTrack message)] → forwarded m t = [message].
Proof. intros E. unfold forwarded. by rewrite E, drop_app_length. Qed.

Lemma track_disabled payload t :
  tracking_disabled this = true → track sdk this payload t = (Ok tt, t).
Proof. intros E. unfold track. by rewrite E. Qed.

(** The [user.updated] branch, once the properties are known to be an
    object. *)
Lemma track_user_updated payload properties t :
  tracking_disabled this = false →
  isUserUpdatedEvent payload = true →
  payload !! "properties" = Some (VObj properties) →
  let basic : obj :=
    {[ "is_tracking_anonymized" := get properties "isTrackingAnonymized";
       "is_marketing_opted_in" := get properties "isMarketingOptedIn";
       "job_title" := get properties "jobTitle";
       "is_setup_complete" := get properties "isSetupComplete" ]} in
  let sent : obj :=
    if truthy (get properties "isTrackingAnonymized") then basic
    else <["last_name" := get properties "lastName"]>
           (<["first_name" := get properties "firstName"]>
              (<["email" := get properties "email"]> basic)) in
  track sdk this payload t =
    super sdk (SdkTrack
                 (<["properties" := VObj sent]>
                    (<["context" := VObj (lightdashContext this)]>
                       (<["event" := namespaced_event this payload]> payload)))) t.
Proof.
  intros En Up Pr. unfold track. rewrite En, Up.
  rewrite (get_lookup _ _ _ Pr). simpl get_prop.
  cbv [mbind M_bind lift] ; cbv beta iota.
  by destruct (truthy (get properties "isTrackingAnonymized")).
Qed.

Lemma track_user_verified payload properties t :
  tracking_disabled this = false →
  isUserUpdatedEvent payload = false →
  isUserVerifiedEvent payload = true →
  payload !! "properties" = Some (VObj properties) →
  let email :=
    if truthy (get properties "isTrackingAnonymized") then VUndef
    else get properties "email" in
  track sdk this payload t =
    super sdk (SdkTrack
                 (<["properties" := VObj (<["email" := email]> properties)]>
                    (<["context" := VObj (lightdashContext this)]>
                       (<["event" := namespaced_event this payload]> payload)))) t.
Proof.
  intros En Up Ve Pr. unfold track. rewrite En, Up, Ve.
  rewrite (get_lookup _ _ _ Pr). simpl get_prop. simpl spread.
  cbv [mbind M_bind lift] ; cbv beta iota.
  by destruct (truthy (get properties "isTrackingAnonymized")).
Qed.

Lemma track_other payload t :
  tracking_disabled this = false →
  isUserUpdatedEvent payload = false →
  isUserVerifiedEvent payload = false →
  track sdk this payload t =
    super sdk (SdkTrack
                 (<["context" := VObj (lightdashContext this)]>
                    (<["event" := namespaced_event this payload]> payload))) t.
Proof. intros En Up Ve. unfold track. by rewrite En, Up, Ve. Qed.
End TrackFacts.

(** ** Suppression *)

(** C5. When the configured write key is falsy, [identify], [track] and
    [group] each return normally and leave the trace as it was: no call
    of any kind reaches the delivery SDK. *)
Theorem suppressed_calls_reach_no_sdk sdk this payload t :
  truthy (writeKey (rudder (lightdashConfig this))) = false →
  identify sdk this payload t = (Ok tt, t) ∧
  track sdk this payload t = (Ok tt, t) ∧
  group sdk this payload t = (Ok tt, t).
Proof.
  intros Off.
  assert (tracking_disabled this = true) as Dis
    by (unfold tracking_disabled; by rewrite Off).
  unfold identify, group. rewrite Dis. repeat split.
  by apply track_disabled.
Qed.

Lemma suppressed_calls_reach_no_sdk_witness :
  truthy (writeKey (rudder (lightdashConfig Sample.disabled))) = false ∧
  identify Sample.sdk_accepting Sample.disabled Sample.identity [] = (Ok tt, []) ∧
  track Sample.sdk_accepting Sample.disabled Sample.identity [] = (Ok tt, []) ∧
  group Sample.sdk_accepting Sample.disabled Sample.identity [] = (Ok tt, []).
Proof.
  split; [reflexivity |].
  apply (suppressed_calls_reach_no_sdk Sample.sdk_accepting Sample.disabled
           Sample.identity []).
  reflexivity.
Defined.

(** ** The [user.updated] event *)

Section UserUpdated.
Variable sdk : trace → sdk_call → option value.
Variable this : LightdashAnalytics.
Variables payload properties : obj.
Variable t : trace.
Hypothesis Updated : isUserUpdatedEvent payload = true.
Hypothesis Properties : payload !! "properties" = Some (VObj properties).

(** With tracking on, exactly one record is forwarded, and its property
    bag is the basic one, extended by the identity fields when the
    anonymization flag is falsy. *)
Lemma user_updated_forwarded :
  forwarded (track sdk this payload) t =
    if tracking_disabled this then []
    else
      let basic : obj :=
        {[ "is_tracking_anonymized" := get properties "isTrackingAnonymized";
           "is_marketing_opted_in" := get properties "isMarketingOptedIn";
           "job_title" := get properties "jobTitle";
           "is_setup_complete" := get properties "isSetupComplete" ]} in
      [ <["properties" :=
            VObj (if truthy (get properties "isTrackingAnonymized") then basic
                  else <["last_name" := get properties "lastName"]>
                         (<["first_name" := get properties "firstName"]>
                            (<["email" := get properties "email"]> basic)))]>
          (<["context" := VObj (lightdashContext this)]>
             (<["event" := namespaced_event this payload]> payload)) ].
Proof.
  destruct (tracking_disabled this) eqn:Dis.
  - apply forwarded_unchanged. by rewrite track_disabled.
  - apply forwarded_one.
    rewrite (track_user_updated sdk this payload properties t Dis Updated Properties).
    apply super_trace.
Qed.
End UserUpdated.

(** C1. A [user.updated] record whose anonymization flag is true: every
    record forwarded to the SDK carries a property bag without the keys
    [email], [first_name] and [last_name] (and with tracking on exactly
    one record is forwarded). *)
Theorem user_updated_anonymized_hides_identity sdk this payload properties t :
  isUserUpdatedEvent payload = true →
  payload !! "properties" = Some (VObj properties) →
  properties !! "isTrackingAnonymized" = Some (VBool true) →
  (tracking_disabled this = false →
   length (forwarded (track sdk this payload) t) = 1) ∧
  ∀ message, message ∈ forwarded (track sdk this payload) t →
    ∃ bag, message !! "properties" = Some (VObj bag) ∧
      bag !! "email" = None ∧
      bag !! "first_name" = None ∧
      bag !! "last_name" = None.
Proof.
  intros Up Pr Fl.
  rewrite (user_updated_forwarded sdk this payload properties t Up Pr).
  destruct (tracking_disabled this).
  - split; [discriminate |]. intros m Hm. by apply elem_of_nil in Hm.
  - split; [done |]. intros m Hm. apply list_elem_of_singleton in Hm. subst m.
    rewrite (get_lookup _ _ _ Fl). simpl truthy. cbv iota.
    eexists. split; [apply lookup_insert_eq |].
    by rewrite !lookup_insert_ne, lookup_singleton_ne by done.
Qed.

Lemma user_updated_anonymized_hides_identity_witness :
  isUserUpdatedEvent (Sample.user_updated true) = true ∧
  Sample.user_updated true !! "properties" = Some (VObj (Sample.user_properties true)) ∧
  Sample.user_properties true !! "isTrackingAnonymized" = Some (VBool true) ∧
  length (forwarded (track Sample.sdk_accepting Sample.enabled
                       (Sample.user_updated true)) []) = 1.
Proof.
  refine (conj eq_refl (conj eq_refl (conj eq_refl _))).
  exact (proj1 (user_updated_anonymized_hides_identity Sample.sdk_accepting Sample.enabled
           (Sample.user_updated true) (Sample.user_properties true) []
                  eq_refl eq_refl eq_refl) eq_refl).
Defined.

(** C7. A [user.updated] record whose anonymization flag is false: the
    forwarded property bag has [email], [first_name] and [last_name]
    bound to the record's [email], [firstName] and [lastName] whenever the
    record has them. *)
Theorem user_updated_identified_carries_identity sdk this payload properties t :
  isUserUpdatedEvent payload = true →
  payload !! "properties" = Some (VObj properties) →
  properties !! "isTrackingAnonymized" = Some (VBool false) →
  (tracking_disabled this = false →
   length (forwarded (track sdk this payload) t) = 1) ∧
  ∀ message, message ∈ forwarded (track sdk this payload) t →
    ∃ bag, message !! "properties" = Some (VObj bag) ∧
      (∀ v, properties !! "email" = Some v → bag !! "email" = Some v) ∧
      (∀ v, properties !! "firstName" = Some v → bag !! "first_name" = Some v) ∧
      (∀ v, properties !! "lastName" = Some v → bag !! "last_name" = Some v).
Proof.
  intros Up Pr Fl.
  rewrite (user_updated_forwarded sdk this payload properties t Up Pr).
  destruct (tracking_disabled this).
  - split; [discriminate |]. intros m Hm. by apply elem_of_nil in Hm.
  - split; [done |]. intros m Hm. apply list_elem_of_singleton in Hm. subst m.
    rewrite (get_lookup _ _ _ Fl). simpl truthy. cbv iota.
    eexists. split; [apply lookup_insert_eq |].
    repeat split; intros v Hv; rewrite (get_lookup _ _ _ Hv).
    + by rewrite !lookup_insert_ne, lookup_insert_eq by done.
    + by rewrite lookup_insert_ne, lookup_insert_eq by done.
    + by rewrite lookup_insert_eq.
Qed.

Lemma user_updated_identified_carries_identity_witness :
  isUserUpdatedEvent (Sample.user_updated false) = true ∧
  Sample.user_updated false !! "properties" = Some (VObj (Sample.user_properties false)) ∧
  Sample.user_properties false !! "isTrackingAnonymized" = Some (VBool false) ∧
  length (forwarded (track Sample.sdk_accepting Sample.enabled
                       (Sample.user_updated false)) []) = 1.
Proof.
  refine (conj eq_refl (conj eq_refl (conj eq_refl _))).
  exact (proj1 (user_updated_identified_carries_identity Sample.sdk_accepting Sample.enabled
           (Sample.user_updated false) (Sample.user_properties false) []
                  eq_refl eq_refl eq_refl) eq_refl).
Defined.

(** C9. A [user.updated] record, whatever its anonymization flag: the keys
    of the forwarded property bag are the four basic ones, together with
    the three identity keys when the flag is falsy; [updatedUserId],
    [organizationId] and [context] are never among them. *)
Theorem user_updated_bag_keys sdk this payload properties t :
  isUserUpdatedEvent payload = true →
  payload !! "properties" = Some (VObj properties) →
  (tracking_disabled this = false →
   length (forwarded (track sdk this payload) t) = 1) ∧
  ∀ message, message ∈ forwarded (track sdk this payload) t →
    ∃ bag, message !! "properties" = Some (VObj bag) ∧
      dom bag = (if truthy (get properties "isTrackingAnonymized")
                 then basic_keys else basic_keys ∪ identity_keys) ∧
      ("updatedUserId" ∉ dom bag) ∧
      ("organizationId" ∉ dom bag) ∧
      ("context" ∉ dom bag).
Proof.
  intros Up Pr.
  rewrite (user_updated_forwarded sdk this payload properties t Up Pr).
  destruct (tracking_disabled this).
  - split; [discriminate |]. intros m Hm. by apply elem_of_nil in Hm.
  - split; [done |]. intros m Hm. apply list_elem_of_singleton in Hm. subst m.
    eexists. split; [apply lookup_insert_eq |].
    unfold basic_keys, identity_keys.
    destruct (truthy (get properties "isTrackingAnonymized"));
      rewrite !dom_insert_L, dom_singleton_L; set_solver.
Qed.

Lemma user_updated_bag_keys_witness :
  isUserUpdatedEvent (Sample.user_updated false) = true ∧
  Sample.user_updated false !! "properties" = Some (VObj (Sample.user_properties false)) ∧
  length (forwarded (track Sample.sdk_accepting Sample.enabled
                       (Sample.user_updated false)) []) = 1.
Proof.
  refine (conj eq_refl (conj eq_refl _)).
  exact (proj1 (user_updated_bag_keys Sample.sdk_accepting Sample.enabled
           (Sample.user_updated false) (Sample.user_properties false) []
                  eq_refl eq_refl) eq_refl).
Defined.

(** ** The [user.verified] event *)

Lemma verified_is_not_updated payload :
  isUserVerifiedEvent payload = true → isUserUpdatedEvent payload = false.
Proof.
  unfold isUserVerifiedEvent, isUserUpdatedEvent.
  destruct (get payload "event"); try discriminate.
  intros E. apply String.eqb_eq in E. by subst.
Qed.

(** C6, as the code has it. A [user.verified] record: the forwarded
    property bag always has the key [email]. When the anonymization flag
    is true the key is bound to undefined, whatever the record held, so no
    email value goes out; when the flag is false it is bound to the
    record's email whenever the record has one. *)
Theorem user_verified_email sdk this payload properties anonymized t :
  isUserVerifiedEvent payload = true →
  payload !! "properties" = Some (VObj properties) →
  properties !! "isTrackingAnonymized" = Some (VBool anonymized) →
  (tracking_disabled this = false →
   length (forwarded (track sdk this payload) t) = 1) ∧
  ∀ message, message ∈ forwarded (track sdk this payload) t →
    ∃ bag, message !! "properties" = Some (VObj bag) ∧
      if anonymized then bag !! "email" = Some VUndef
      else ∀ v, properties !! "email" = Some v → bag !! "email" = Some v.
Proof.
  intros Ve Pr Fl.
  destruct (tracking_disabled this) eqn:Dis.
  - rewrite (forwarded_unchanged (track sdk this payload) t)
      by (by rewrite track_disabled).
    split; [discriminate |]. intros m Hm. by apply elem_of_nil in Hm.
  - pose proof (track_user_verified sdk this payload properties t Dis
                  (verified_is_not_updated payload Ve) Ve Pr) as Tr.
    cbv zeta in Tr. rewrite (get_lookup _ _ _ Fl) in Tr. simpl truthy in Tr.
    erewrite forwarded_one by (rewrite Tr; apply super_trace).
    split; [done |]. intros m Hm. apply list_elem_of_singleton in Hm. subst m.
    eexists. split; [apply lookup_insert_eq |].
    destruct anonymized.
    + apply lookup_insert_eq.
    + intros v Hv. by rewrite (get_lookup _ _ _ Hv), lookup_insert_eq.
Qed.

Lemma user_verified_email_witness :
  isUserVerifiedEvent (Sample.user_verified true) = true ∧
  Sample.user_verified true !! "properties"
    = Some (VObj (Sample.verified_properties true)) ∧
  Sample.verified_properties true !! "isTrackingAnonymized" = Some (VBool true) ∧
  length (forwarded (track Sample.sdk_accepting Sample.enabled
                       (Sample.user_verified true)) []) = 1.
Proof.
  refine (conj eq_refl (conj eq_refl (conj eq_refl _))).
  exact (proj1 (user_verified_email Sample.sdk_accepting Sample.enabled
                  (Sample.user_verified true) (Sample.verified_properties true)
                  true [] eq_refl eq_refl eq_refl) eq_refl).
Defined.

(** C6 as stated fails: for an anonymized [user.verified] record the
    forwarded property bag does not omit [email]; the key is there, bound
    to undefined. *)
Lemma user_verified_anonymized_keeps_email_key :
  ∃ message bag,
    forwarded (track Sample.sdk_accepting Sample.enabled
                 (Sample.user_verified true)) [] = [message] ∧
    message !! "properties" = Some (VObj bag) ∧
    bag !! "email" = Some VUndef ∧
    "email" ∈ dom bag.
Proof.
  exists (<["properties" :=
             VObj (<["email" := VUndef]> (Sample.verified_properties true))]>
            (<["context" := VObj (lightdashContext Sample.enabled)]>
               (<["event" := VStr "lightdash_server.user.verified"]>
                  (Sample.user_verified true)))),
         (<["email" := VUndef]> (Sample.verified_properties true)).
  split; [by vm_compute |].
  split; [apply lookup_insert_eq |].
  split; [apply lookup_insert_eq |].
  apply elem_of_dom. rewrite lookup_insert_eq. by eexists.
Qed.

(** ** Every other event *)

(** C10. With tracking on, a record that is neither [user.updated] nor
    [user.verified] reaches the SDK as it came, except that its event name
    is prefixed with the application name and the process-wide context is
    attached; every other property of the record, the property bag among
    them, is forwarded as it is. *)
Theorem other_events_forwarded_unchanged sdk this payload t :
  tracking_disabled this = false →
  isUserUpdatedEvent payload = false →
  isUserVerifiedEvent payload = false →
  ∃ message,
    (track sdk this payload t).2 = t ++ [Sdk (SdkTrack message)] ∧
    (∀ event, payload !! "event" = Some (VStr event) →
       message !! "event"
         = Some (VStr (name (lightdashContext_app this) +:+ "." +:+ event))) ∧
    message !! "context" = Some (VObj (lightdashContext this)) ∧
    (∀ k, k ≠ "event" → k ≠ "context" → message !! k = payload !! k) ∧
    message !! "properties" = payload !! "properties".
Proof.
  intros En Up Ve. eexists. split.
  - rewrite (track_other sdk this payload t En Up Ve). apply super_trace.
  - repeat split.
    + intros event Hev. rewrite lookup_insert_ne, lookup_insert_eq by done.
      unfold namespaced_event. by rewrite (get_lookup _ _ _ Hev).
    + apply lookup_insert_eq.
    + intros k Hk1 Hk2. by rewrite !lookup_insert_ne.
    + by rewrite !lookup_insert_ne.
Qed.

Lemma other_events_forwarded_unchanged_witness :
  tracking_disabled Sample.enabled = false ∧
  isUserUpdatedEvent Sample.get_views = false ∧
  isUserVerifiedEvent Sample.get_views = false ∧
  ∃ message,
    (track Sample.sdk_accepting Sample.enabled Sample.get_views []).2
      = [Sdk (SdkTrack message)] ∧
    message !! "event" = Some (VStr "lightdash_server.semantic_layer.get_views") ∧
    message !! "properties" = Sample.get_views !! "properties".
Proof.
  refine (conj eq_refl (conj eq_refl (conj eq_refl _))).
  destruct (other_events_forwarded_unchanged Sample.sdk_accepting Sample.enabled
              Sample.get_views [] eq_refl eq_refl eq_refl)
    as (message & Tr & Ev & _ & _ & Pr).
  exists message. split; [exact Tr |]. split; [| exact Pr].
  exact (Ev "semantic_layer.get_views" eq_refl).
Defined.

(** ** Request classification *)

Section ContextFacts.
Variable LightdashRequestMethodHeader : string.
Variable getRequestMethod : option string → string.
Variables RequestMethod_CLI RequestMethod_CLI_CI RequestMethod_UNKNOWN : string.
Variable QueryExecutionContext : list (string * string).

Local Notation fromHeader :=
  (getContextFromHeader LightdashRequestMethodHeader getRequestMethod
     RequestMethod_CLI RequestMethod_CLI_CI RequestMethod_UNKNOWN
     QueryExecutionContext).
Local Notation fromQueryOrHeader :=
  (getContextFromQueryOrHeader LightdashRequestMethodHeader getRequestMethod
     RequestMethod_CLI RequestMethod_CLI_CI RequestMethod_UNKNOWN
     QueryExecutionContext).

Lemma enum_member_entry key value :
  enum_member QueryExecutionContext key = Some value →
  (key, value) ∈ QueryExecutionContext.
Proof.
  unfold enum_member.
  destruct (find _ _) as [[k v] |] eqn:F; [| discriminate].
  intros [= <-]. apply find_some in F as [In E].
  apply String.eqb_eq in E. simpl in E. subst k.
  by apply list_elem_of_In.
Qed.

Lemma match_context_some entries context value :
  match_context entries context = Some value →
  toLowerCase value = toLowerCase context ∧ ∃ key, (key, value) ∈ entries.
Proof.
  induction entries as [| [k v] rest IH]; simpl; [discriminate |].
  destruct (String.eqb _ _) eqn:E.
  - intros [= <-]. apply String.eqb_eq in E. split; [done |].
    exists k. apply list_elem_of_here.
  - intros M. destruct (IH M) as (L & k' & In). split; [done |].
    exists k'. by apply list_elem_of_further.
Qed.

Lemma match_context_none entries context :
  match_context entries context = None ↔
  ∀ key value, (key, value) ∈ entries →
               toLowerCase value ≠ toLowerCase context.
Proof.
  induction entries as [| [k v] rest IH]; simpl.
  - split; [| done]. intros _ key value In. by apply elem_of_nil in In.
  - destruct (String.eqb _ _) eqn:E.
    + split; [discriminate |]. intros No. apply String.eqb_eq in E.
      exfalso. apply (No k v); [apply list_elem_of_here | done].
    + apply String.eqb_neq in E. rewrite IH. split.
      * intros No key value In. apply elem_of_cons in In as [[= -> ->] | In];
          [done | by apply (No key)].
      * intros No key value In. apply (No key). by apply list_elem_of_further.
Qed.

(** C8, as the code has it. A string query parameter equal to "cli" up
    to letter case yields the CLI context whatever the headers say,
    without a warning; a non-empty string that matches no enum value
    yields the header classification and exactly one warning; the empty
    string yields the header classification and no warning. *)
Theorem query_context_classification req context t :
  query req !! "context" = Some (QString context) →
  (∀ cli,
     enum_member QueryExecutionContext "CLI" = Some cli →
     toLowerCase cli = "cli" →
     (∀ key value, (key, value) ∈ QueryExecutionContext →
                   toLowerCase value = "cli" → value = cli) →
     toLowerCase context = "cli" →
     fromQueryOrHeader req t = (Ok (Some cli), t)) ∧
  (context ≠ "" →
   (∀ key value, (key, value) ∈ QueryExecutionContext →
                 toLowerCase value ≠ toLowerCase context) →
   fromQueryOrHeader req t =
     (Ok (fromHeader req),
      t ++ [ConsoleWarn [VStr "Invalid query execution context"; VStr context]])) ∧
  (context = "" → fromQueryOrHeader req t = (Ok (fromHeader req), t)).
Proof.
  intros Q. unfold getContextFromQueryOrHeader. rewrite Q. repeat split.
  - intros cli Member Lower Unique Cli.
    assert (String.eqb context "" = false) as ->.
    { apply String.eqb_neq. intros ->. discriminate Cli. }
    simpl negb. cbv iota.
    destruct (match_context QueryExecutionContext context) as [value |] eqn:Mc.
    + apply match_context_some in Mc as (L & key & In).
      rewrite Cli in L. by rewrite (Unique key value In L).
    + exfalso. rewrite match_context_none in Mc.
      apply (Mc "CLI" cli); [by apply enum_member_entry | congruence].
  - intros Ne No. apply String.eqb_neq in Ne. rewrite Ne. simpl negb. cbv iota.
    apply match_context_none in No. by rewrite No.
  - intros ->. reflexivity.
Qed.
End ContextFacts.

Lemma query_context_classification_witness :
  query (Sample.request (Some (QString "CLI")) (Some "WEB_APP")) !! "context"
    = Some (QString "CLI") ∧
  getContextFromQueryOrHeader "Lightdash-Request-Method" Sample.request_method
    "CLI" "CLI_CI" "UNKNOWN" Sample.contexts
    (Sample.request (Some (QString "CLI")) (Some "WEB_APP")) []
    = (Ok (Some "cli"), []).
Proof.
  split; [reflexivity |].
  apply (query_context_classification "Lightdash-Request-Method"
           Sample.request_method "CLI" "CLI_CI" "UNKNOWN" Sample.contexts
           (Sample.request (Some (QString "CLI")) (Some "WEB_APP")) "CLI" []
           eq_refl).
  - reflexivity.
  - reflexivity.
  - intros key value In Lower.
    repeat (apply elem_of_cons in In as [[= -> ->] | In];
            [first [reflexivity | discriminate Lower] |]).
    by apply elem_of_nil in In.
  - reflexivity.
Defined.

(** An unknown, non-empty value: one warning, and the header decides. *)
Example unknown_query_context_warns_once :
  getContextFromQueryOrHeader "Lightdash-Request-Method" Sample.request_method
    "CLI" "CLI_CI" "UNKNOWN" Sample.contexts
    (Sample.request (Some (QString "nonsense")) (Some "CLI_CI")) []
    = (Ok (Some "cli"),
       [ConsoleWarn [VStr "Invalid query execution context"; VStr "nonsense"]]).
Proof. reflexivity. Qed.

(** C8 as stated fails on the empty string: [?context=] is a string that
    matches no enum value, and no warning is written. *)
Lemma empty_query_context_writes_no_warning :
  query (Sample.request (Some (QString "")) None) !! "context" = Some (QString "") ∧
  match_context Sample.contexts "" = None ∧
  warnings (getContextFromQueryOrHeader "Lightdash-Request-Method"
              Sample.request_method "CLI" "CLI_CI" "UNKNOWN" Sample.contexts
              (Sample.request (Some (QString "")) None) []).2 = [].
Proof. repeat split. Qed.

(** ** The lifecycle of [wrapEvent] *)

(** Peels equal leading characters off [H : s +:+ suffix = literal] until
    the two sides differ. *)
Ltac differ H s :=
  repeat (destruct s as [| ? s]; simpl in H; try discriminate H;
          injection H as _ H).

Lemma lifecycle_not_updated s suffix :
  suffix ∈ [".started"; ".completed"; ".error"] →
  String.eqb (s +:+ suffix) "user.updated" = false.
Proof.
  intros In. apply String.eqb_neq. intros H.
  repeat (apply elem_of_cons in In as [-> | In]); [| | | by apply elem_of_nil in In];
    differ H s.
Qed.

Lemma lifecycle_not_verified s suffix :
  suffix ∈ [".started"; ".completed"; ".error"] →
  String.eqb (s +:+ suffix) "user.verified" = false.
Proof.
  intros In. apply String.eqb_neq. intros H.
  repeat (apply elem_of_cons in In as [-> | In]); [| | | by apply elem_of_nil in In];
    differ H s.
Qed.

Section WrapFacts.
Variable sdk : trace → sdk_call → option value.
Variable this : LightdashAnalytics.
Variable payload : obj.
Hypothesis Enabled : tracking_disabled this = false.

(** A lifecycle record takes the last branch of [track]. *)
Lemma track_lifecycle record suffix t :
  suffix ∈ [".started"; ".completed"; ".error"] →
  record !! "event" = Some (suffixed_event payload suffix) →
  track sdk this record t =
    super sdk (SdkTrack
                 (<["context" := VObj (lightdashContext this)]>
                    (<["event" := VStr (lifecycle_name this payload suffix)]>
                       record))) t.
Proof.
  intros In Ev.
  rewrite track_other; [| done | |].
  - unfold namespaced_event, lifecycle_name.
    by rewrite (get_lookup _ _ _ Ev).
  - unfold isUserUpdatedEvent. rewrite (get_lookup _ _ _ Ev).
    by apply lifecycle_not_updated.
  - unfold isUserVerifiedEvent. rewrite (get_lookup _ _ _ Ev).
    by apply lifecycle_not_verified.
Qed.
End WrapFacts.

Section WrapRun.
Variable sdk : trace → sdk_call → option value.
Variable this : LightdashAnalytics.
Variable payload : obj.
Variable func : M value.
Variable extraProperties : option (value → M value).
Hypothesis Enabled : tracking_disabled this = false.

Local Notation context := (VObj (lightdashContext this)).
Local Notation named suffix record :=
  (<["context" := context]>
     (<["event" := VStr (lifecycle_name this payload suffix)]> record)).

(** The three records [wrapEvent] hands to the SDK. *)
Local Notation started :=
  (named ".started" (<["event" := suffixed_event payload ".started"]> payload)).
Local Notation completed properties :=
  (named ".completed"
     (<["properties" :=
          VObj (spread properties ∪ spread (get payload "properties"))]>
        (<["event" := suffixed_event payload ".completed"]> payload))).
Local Notation error message :=
  (named ".error"
     (<["properties" :=
          VObj (<["error" := message]> (spread (get payload "properties")))]>
        (<["event" := suffixed_event payload ".error"]> payload))).

Local Notation derive results :=
  (match extraProperties with
   | Some f => f results
   | None => mret (VObj ∅)
   end).

(** The [catch] block, run on failure [e] from trace [t]. *)
Let on_failure (e : value) (t : trace) : result value * trace :=
  match get_prop e "message" with
  | Throw e' => (Throw e', t)
  | Ok message =>
      match sdk t (SdkTrack (error message)) with
      | Some e' => (Throw e', t ++ [Sdk (SdkTrack (error message))])
      | None =>
          (Throw e,
           t ++ [Sdk (SdkTrack (error message));
                 LoggerError ("Error in scheduler task: " +:+ to_string e)])
      end
  end.

(** [wrapEvent] with tracking on, one SDK answer at a time. *)
Lemma wrapEvent_run t :
  wrapEvent sdk this payload func extraProperties t =
    match sdk t (SdkTrack started) with
    | Some e => on_failure e (t ++ [Sdk (SdkTrack started)])
    | None =>
        match func (t ++ [Sdk (SdkTrack started)]) with
        | (Throw e, t2) => on_failure e t2
        | (Ok results, t2) =>
            match derive results t2 with
            | (Throw e, t3) => on_failure e t3
            | (Ok properties, t3) =>
                match sdk t3 (SdkTrack (completed properties)) with
                | Some e =>
                    on_failure e (t3 ++ [Sdk (SdkTrack (completed properties))])
                | None => (Ok results, t3 ++ [Sdk (SdkTrack (completed properties))])
                end
            end
        end
    end.
Proof.
  assert (∀ e t', 
    (message ← lift (get_prop e "message");
     track sdk this
       (<["properties" :=
            VObj (<["error" := message]> (spread (get payload "properties")))]>
          (<["event" := suffixed_event payload ".error"]> payload));;
     emit (LoggerError ("Error in scheduler task: " +:+ to_string e));;
     throw e) t' = on_failure e t') as Handler.
  { intros e t'. unfold on_failure. cbv [mbind M_bind lift].
    destruct (get_prop e "message") as [message | e']; [| done].
    rewrite (track_lifecycle sdk this payload Enabled _ ".error");
      [| set_solver | by rewrite lookup_insert_ne by done; apply lookup_insert_eq].
    unfold super. destruct (sdk t' _); [done |].
    unfold emit, throw. by rewrite <- app_assoc. }
  unfold wrapEvent, try_catch. cbv [mbind M_bind].
  rewrite (track_lifecycle sdk this payload Enabled _ ".started");
    [| set_solver | by rewrite lookup_insert_eq].
  unfold super at 1. destruct (sdk t _) as [e |]; [apply Handler |].
  destruct (func _) as [[results | e] t2]; [| apply Handler].
  destruct (derive results t2) as [[properties | e] t3]; [| apply Handler].
  rewrite (track_lifecycle sdk this payload Enabled _ ".completed");
    [| set_solver | by rewrite lookup_insert_ne, lookup_insert_eq].
  unfold super. destruct (sdk t3 _) as [e |]; [apply Handler | done].
Qed.
End WrapRun.

Lemma get_prop_defined e k : nullish e = false → ∃ v, get_prop e k = Ok v.
Proof. destruct e; simpl; try discriminate; eauto. Qed.




(** C2, as the code has it. With tracking on and an SDK that accepts the
    calls, every call of [wrapEvent] sends exactly one [.started] event,
    and only then runs the operation. After the operation and the
    [extraProperties] callback (when one is given), provided neither
    failed with null or undefined, it sends exactly one terminal event:
    [.completed] when both returned, [.error] (followed by the log line
    and the rethrown failure) when either failed. A failure that is null
    or undefined ends the trace where the operation or the callback left
    it. *)
Theorem wrapEvent_lifecycle sdk this payload func extraProperties t :
  tracking_disabled this = false →
  (∀ t' call, sdk t' call = None) →
  ∃ started,
    started !! "event" = Some (VStr (lifecycle_name this payload ".started")) ∧
    let failed (e : value) (t' : trace) :=
      if nullish e
      then (wrapEvent sdk this payload func extraProperties t).2 = t'
      else
        ∃ error,
          error !! "event" = Some (VStr (lifecycle_name this payload ".error")) ∧
          wrapEvent sdk this payload func extraProperties t =
            (Throw e,
             t' ++ [Sdk (SdkTrack error);
                    LoggerError ("Error in scheduler task: " +:+ to_string e)]) in
    match func (t ++ [Sdk (SdkTrack started)]) with
    | (Throw e, t2) => failed e t2
    | (Ok results, t2) =>
        match match extraProperties with
              | Some f => f results
              | None => mret (VObj ∅)
              end t2 with
        | (Throw e, t3) => failed e t3
        | (Ok _, t3) =>
            ∃ completed,
              completed !! "event"
                = Some (VStr (lifecycle_name this payload ".completed")) ∧
              wrapEvent sdk this payload func extraProperties t =
                (Ok results, t3 ++ [Sdk (SdkTrack completed)])
        end
    end.
Proof.
  intros Enabled Accepts.
  rewrite wrapEvent_run by done. rewrite Accepts.
  match goal with
  | |- context [func (t ++ [Sdk (SdkTrack ?m)])] => exists m
  end.
  split; [rewrite lookup_insert_ne by done; apply lookup_insert_eq |].
  cbv zeta.
  pose proof (fun e => get_prop_defined e "message") as Msg.
  assert (∀ e, nullish e = true → ∃ e', get_prop e "message" = Throw e') as Null
    by (intros e N; destruct e; try discriminate N; by eexists).
  destruct (func _) as [[results | e] t2].
  - destruct (match extraProperties with Some f => f results | None => _ end t2)
      as [[properties | e] t3].
    + rewrite Accepts. eexists. split; [| reflexivity].
      rewrite lookup_insert_ne by done. apply lookup_insert_eq.
    + destruct (nullish e) eqn:N.
      * by destruct (Null e N) as [e' ->].
      * destruct (Msg e N) as [message ->].
        rewrite Accepts. eexists. split; [| reflexivity].
        rewrite lookup_insert_ne by done. apply lookup_insert_eq.
  - destruct (nullish e) eqn:N.
    + by destruct (Null e N) as [e' ->].
    + destruct (Msg e N) as [message ->].
      rewrite Accepts. eexists. split; [| reflexivity].
      rewrite lookup_insert_ne by done. apply lookup_insert_eq.
Qed.

Lemma wrapEvent_lifecycle_witness :
  tracking_disabled Sample.enabled = false ∧
  event_names (wrapEvent Sample.sdk_accepting Sample.enabled Sample.get_views
                 Sample.resolving (Some Sample.count_views) []).2
    = [VStr (lifecycle_name Sample.enabled Sample.get_views ".started");
       VStr (lifecycle_name Sample.enabled Sample.get_views ".completed")].
Proof.
  refine (conj eq_refl _).
  destruct (wrapEvent_lifecycle Sample.sdk_accepting Sample.enabled Sample.get_views
              Sample.resolving (Some Sample.count_views) []
              eq_refl (fun _ _ => eq_refl))
    as (started & Started & completed & Completed & Run).
  rewrite Run. unfold event_names. simpl.
  by rewrite (get_lookup _ _ _ Started), (get_lookup _ _ _ Completed).
Defined.

(** C2 as stated fails in four ways. With tracking off nothing is sent.
    When the operation resolves but the [extraProperties] callback throws,
    the terminal event is [.error]. When the SDK fails the [.completed]
    event, [.error] is sent after it. When the operation rejects with
    undefined, no terminal event is sent. *)
Lemma wrapEvent_terminal_event_can_differ :
  wrapEvent Sample.sdk_accepting Sample.disabled Sample.get_views
    Sample.resolving None []
    = (Ok Sample.views, [LoggerError "func ran"]) ∧
  (let out :=
     wrapEvent Sample.sdk_accepting Sample.enabled Sample.get_views
       Sample.resolving (Some Sample.failing_callback) [] in
   out.1 = Throw Sample.boom ∧
   event_names out.2 =
     [VStr "lightdash_server.semantic_layer.get_views.started";
      VStr "lightdash_server.semantic_layer.get_views.error"]) ∧
  (let out :=
     wrapEvent
       (Sample.sdk_failing "lightdash_server.semantic_layer.get_views.completed"
          Sample.boom)
       Sample.enabled Sample.get_views Sample.resolving None [] in
   event_names out.2 =
     [VStr "lightdash_server.semantic_layer.get_views.started";
      VStr "lightdash_server.semantic_layer.get_views.completed";
      VStr "lightdash_server.semantic_layer.get_views.error"]) ∧
  (let out :=
     wrapEvent Sample.sdk_accepting Sample.enabled Sample.get_views
       (Sample.rejecting VUndef) None [] in
   event_names out.2 = [VStr "lightdash_server.semantic_layer.get_views.started"]).
Proof. repeat split; by vm_compute. Qed.

Lemma sdk_failing_hit event e t (message : obj) :
  message !! "event" = Some (VStr event) →
  Sample.sdk_failing event e t (SdkTrack message) = Some e.
Proof.
  intros Ev. unfold Sample.sdk_failing.
  by rewrite (get_lookup _ _ _ Ev), String.eqb_refl.
Qed.

Lemma sdk_failing_miss event other e t (message : obj) :
  String.eqb other event = false →
  message !! "event" = Some (VStr other) →
  Sample.sdk_failing event e t (SdkTrack message) = None.
Proof.
  intros Ne Ev. unfold Sample.sdk_failing.
  by rewrite (get_lookup _ _ _ Ev), Ne.
Qed.




(** * Further properties of the dispatcher *)

(** ** What [identify], [track] and [group] hand to the SDK *)

Lemma issued_unchanged {A} (m : M A) t : (m t).2 = t → issued m t = [].
Proof. intros E. unfold issued. by rewrite E, drop_all. Qed.

Lemma issued_one {A} (m : M A) t call :
  (m t).2 = t ++ [Sdk call] → issued m t = [call].
Proof. intros E. unfold issued. by rewrite E, drop_app_length. Qed.

(** Whatever the branch, [track] either leaves the trace alone or adds one
    record; the record has the namespaced event, the dispatcher's context,
    and every top-level field of the payload other than [event], [context]
    and [properties]. *)
Lemma track_effect sdk this payload t :
  (track sdk this payload t).2 = t ∨
  ∃ message,
    (track sdk this payload t).2 = t ++ [Sdk (SdkTrack message)] ∧
    message !! "event" = Some (namespaced_event this payload) ∧
    message !! "context" = Some (VObj (lightdashContext this)) ∧
    ∀ k, k ≠ "event" → k ≠ "context" → k ≠ "properties" →
         message !! k = payload !! k.
Proof.
  unfold track. destruct (tracking_disabled this); [by left |].
  destruct (isUserUpdatedEvent payload);
    [| destruct (isUserVerifiedEvent payload)];
    try destruct (get payload "properties") eqn:P;
    simpl get_prop; cbv [mbind M_bind lift mret M_ret]; cbv beta iota;
    try (by left);
    repeat match goal with
           | |- context [truthy ?v] => destruct (truthy v)
           | |- context [String.eqb ?a ?b] => destruct (String.eqb a b)
           end;
    right; eexists; (split; [apply super_trace |]);
    repeat split; intros;
    rewrite ?lookup_insert_eq; rewrite ?lookup_insert_ne by done;
    rewrite ?lookup_insert_eq; rewrite ?lookup_insert_ne by done;
    rewrite ?lookup_insert_eq; done.
Qed.

(** Every record [track] forwards, from whichever branch, has its event
    name prefixed with the application name and keeps every top-level
    field of the payload other than [event], [context] and [properties]. *)
Theorem track_keeps_other_fields sdk this payload t :
  ∀ message, message ∈ forwarded (track sdk this payload) t →
    message !! "event"
      = Some (VStr (name (lightdashContext_app this) +:+ "." +:+
                    to_string (get payload "event"))) ∧
    ∀ k, k ≠ "event" → k ≠ "context" → k ≠ "properties" →
         message !! k = payload !! k.
Proof.
  intros message In.
  destruct (track_effect sdk this payload t) as [Same | (m & Tr & Ev & _ & Fr)].
  - rewrite (forwarded_unchanged _ _ Same) in In. by apply elem_of_nil in In.
  - rewrite (forwarded_one _ _ _ Tr) in In.
    apply list_elem_of_singleton in In. by subst.
Qed.

Lemma issued_context sdk this payload t :
  ∀ call,
    call ∈ issued (identify sdk this payload) t ++
           issued (track sdk this payload) t ++
           issued (group sdk this payload) t →
    call_message call !! "context" = Some (VObj (lightdashContext this)).
Proof.
  intros call In. rewrite !elem_of_app in In. destruct In as [In | [In | In]].
  - unfold identify in In. destruct (tracking_disabled this).
    + rewrite issued_unchanged in In by done. by apply elem_of_nil in In.
    + rewrite (issued_one _ _ _ (super_trace sdk _ t)) in In.
      apply list_elem_of_singleton in In. subst. apply lookup_insert_eq.
  - destruct (track_effect sdk this payload t) as [Same | (m & Tr & _ & Ctx & _)].
    + rewrite (issued_unchanged _ _ Same) in In. by apply elem_of_nil in In.
    + rewrite (issued_one _ _ _ Tr) in In.
      apply list_elem_of_singleton in In. by subst.
  - unfold group in In. destruct (tracking_disabled this).
    + rewrite issued_unchanged in In by done. by apply elem_of_nil in In.
    + rewrite (issued_one _ _ _ (super_trace sdk _ t)) in In.
      apply list_elem_of_singleton in In. subst. apply lookup_insert_eq.
Qed.

(** Every call [identify], [track] or [group] issues carries the
    dispatcher's context under [context], whatever the payload had there. *)
Theorem every_call_carries_context sdk this payload t :
  ∀ call,
    call ∈ issued (identify sdk this payload) t ++
           issued (track sdk this payload) t ++
           issued (group sdk this payload) t →
    call_message call !! "context" = Some (VObj (lightdashContext this)).
Proof. exact (issued_context sdk this payload t). Qed.

(** With tracking on, [identify] and [group] each issue exactly one call,
    whose record is the payload with the context attached: every other
    field, the trait bag among them, goes out as given, whatever the
    anonymization flag in the traits says. *)
Theorem identify_and_group_forward_payload sdk this payload t :
  tracking_disabled this = false →
  (∃ message,
     (identify sdk this payload t).2 = t ++ [Sdk (SdkIdentify message)] ∧
     ∀ k, k ≠ "context" → message !! k = payload !! k) ∧
  (∃ message,
     (group sdk this payload t).2 = t ++ [Sdk (SdkGroup message)] ∧
     ∀ k, k ≠ "context" → message !! k = payload !! k).
Proof.
  intros En. unfold identify, group. rewrite En.
  split; eexists; (split; [apply super_trace |]);
    intros k Hk; by rewrite lookup_insert_ne.
Qed.

Lemma identify_and_group_forward_payload_witness :
  tracking_disabled Sample.enabled = false ∧
  ∃ message,
    (identify Sample.sdk_accepting Sample.enabled Fixture.anonymized_identity []).2
      = [Sdk (SdkIdentify message)] ∧
    message !! "traits" = Fixture.anonymized_identity !! "traits".
Proof.
  refine (conj eq_refl _).
  destruct (identify_and_group_forward_payload Sample.sdk_accepting Sample.enabled
              Fixture.anonymized_identity [] eq_refl)
    as [(message & Tr & Fr) _].
  exists message. split; [exact Tr |]. by apply Fr.
Defined.

(** A failure of the SDK is not caught by [identify], [track] or [group]:
    with tracking on, when the SDK fails the call with [e], the operation
    throws [e] ([track] on a [user.updated] or [user.verified] record needs
    a property bag to get as far as the call). *)
Theorem sdk_failure_propagates sdk this payload e t :
  tracking_disabled this = false →
  (∀ t' call, sdk t' call = Some e) →
  (identify sdk this payload t).1 = Throw e ∧
  (group sdk this payload t).1 = Throw e ∧
  (nullish (get payload "properties") = false ∨
   (isUserUpdatedEvent payload = false ∧ isUserVerifiedEvent payload = false) →
   (track sdk this payload t).1 = Throw e).
Proof.
  intros En Fails. unfold identify, group, track, super. rewrite En, !Fails.
  repeat split. intros Ok.
  destruct (isUserUpdatedEvent payload);
    [| destruct (isUserVerifiedEvent payload)];
    try (by rewrite Fails);
    (destruct Ok as [NotNull | [? ?]]; [| done]);
    destruct (get payload "properties"); try discriminate NotNull;
    simpl get_prop; cbv [mbind M_bind lift mret M_ret]; cbv beta iota;
    repeat match goal with
           | |- context [truthy ?v] => destruct (truthy v)
           | |- context [String.eqb ?a ?b] => destruct (String.eqb a b)
           end;
    by rewrite Fails.
Qed.

Lemma sdk_failure_propagates_witness :
  tracking_disabled Sample.enabled = false ∧
  (track (Fixture.sdk_rejecting Fixture.timeout) Sample.enabled
     (Sample.user_updated true) []).1 = Throw Fixture.timeout.
Proof.
  refine (conj eq_refl _).
  destruct (sdk_failure_propagates (Fixture.sdk_rejecting Fixture.timeout)
              Sample.enabled (Sample.user_updated true) Fixture.timeout []
              eq_refl (fun _ _ => eq_refl))
    as (_ & _ & Track).
  apply Track. left. reflexivity.
Defined.

(** ** More on the redacted events *)

(** A [user.updated] record, anonymized or not: the four basic keys of the
    forwarded bag are bound to the record's [isTrackingAnonymized],
    [isMarketingOptedIn], [jobTitle] and [isSetupComplete] (to undefined
    where the record has none). *)
Theorem user_updated_basic_values sdk this payload properties t :
  isUserUpdatedEvent payload = true →
  payload !! "properties" = Some (VObj properties) →
  (tracking_disabled this = false →
   length (forwarded (track sdk this payload) t) = 1) ∧
  ∀ message, message ∈ forwarded (track sdk this payload) t →
    ∃ bag, message !! "properties" = Some (VObj bag) ∧
      bag !! "is_tracking_anonymized"
        = Some (get properties "isTrackingAnonymized") ∧
      bag !! "is_marketing_opted_in"
        = Some (get properties "isMarketingOptedIn") ∧
      bag !! "job_title" = Some (get properties "jobTitle") ∧
      bag !! "is_setup_complete" = Some (get properties "isSetupComplete").
Proof.
  intros Up Pr.
  rewrite (user_updated_forwarded sdk this payload properties t Up Pr).
  destruct (tracking_disabled this).
  - split; [discriminate |]. intros m Hm. by apply elem_of_nil in Hm.
  - split; [done |]. intros m Hm. apply list_elem_of_singleton in Hm. subst m.
    eexists. split; [apply lookup_insert_eq |].
    destruct (truthy (get properties "isTrackingAnonymized")); repeat split;
      rewrite ?lookup_insert_eq; rewrite ?lookup_insert_ne by done;
      rewrite ?lookup_insert_eq; rewrite ?lookup_insert_ne by done;
      rewrite ?lookup_insert_eq; rewrite ?lookup_insert_ne by done;
      rewrite ?lookup_insert_eq; rewrite ?lookup_insert_ne by done;
      rewrite ?lookup_insert_eq; rewrite ?lookup_insert_ne by done;
      rewrite ?lookup_insert_eq; rewrite ?lookup_insert_ne by done;
      rewrite ?lookup_insert_eq; rewrite ?lookup_singleton_eq; done.
Qed.

Lemma user_updated_basic_values_witness :
  isUserUpdatedEvent (Sample.user_updated true) = true ∧
  Sample.user_updated true !! "properties"
    = Some (VObj (Sample.user_properties true)) ∧
  length (forwarded (track Sample.sdk_accepting Sample.enabled
                       (Sample.user_updated true)) []) = 1.
Proof.
  refine (conj eq_refl (conj eq_refl _)).
  exact (proj1 (user_updated_basic_values Sample.sdk_accepting Sample.enabled
                  (Sample.user_updated true) (Sample.user_properties true) []
                  eq_refl eq_refl) eq_refl).
Defined.

(** A [user.verified] record: the forwarded bag always has the key
    [email], and every other property of the record ([location],
    [isTrackingAnonymized], ...) goes out as it came. *)
Theorem user_verified_keeps_other_properties sdk this payload properties t :
  isUserVerifiedEvent payload = true →
  payload !! "properties" = Some (VObj properties) →
  (tracking_disabled this = false →
   length (forwarded (track sdk this payload) t) = 1) ∧
  ∀ message, message ∈ forwarded (track sdk this payload) t →
    ∃ bag, message !! "properties" = Some (VObj bag) ∧
      is_Some (bag !! "email") ∧
      ∀ k, k ≠ "email" → bag !! k = properties !! k.
Proof.
  intros Ve Pr.
  destruct (tracking_disabled this) eqn:Dis.
  - rewrite (forwarded_unchanged (track sdk this payload) t)
      by (by rewrite track_disabled).
    split; [discriminate |]. intros m Hm. by apply elem_of_nil in Hm.
  - pose proof (track_user_verified sdk this payload properties t Dis
                  (verified_is_not_updated payload Ve) Ve Pr) as Tr.
    cbv zeta in Tr.
    erewrite forwarded_one by (rewrite Tr; apply super_trace).
    split; [done |]. intros m Hm. apply list_elem_of_singleton in Hm. subst m.
    eexists. split; [apply lookup_insert_eq |]. split.
    + rewrite lookup_insert_eq. by eexists.
    + intros k Hk. by rewrite lookup_insert_ne.
Qed.

Lemma user_verified_keeps_other_properties_witness :
  isUserVerifiedEvent (Sample.user_verified true) = true ∧
  Sample.user_verified true !! "properties"
    = Some (VObj (Sample.verified_properties true)) ∧
  length (forwarded (track Sample.sdk_accepting Sample.enabled
                       (Sample.user_verified true)) []) = 1.
Proof.
  refine (conj eq_refl (conj eq_refl _)).
  exact (proj1 (user_verified_keeps_other_properties Sample.sdk_accepting
                  Sample.enabled (Sample.user_verified true)
                  (Sample.verified_properties true) [] eq_refl eq_refl) eq_refl).
Defined.

(** With tracking on, a [user.updated] or [user.verified] record that has
    no property bag (undefined or null) makes [track] throw a TypeError
    before anything reaches the SDK. *)
Theorem redacted_event_without_properties_throws sdk this payload t :
  tracking_disabled this = false →
  isUserUpdatedEvent payload = true ∨ isUserVerifiedEvent payload = true →
  nullish (get payload "properties") = true →
  track sdk this payload t
    = (Throw (type_error
                ("Cannot read properties of " +:+
                 to_string (get payload "properties") +:+
                 " (reading 'isTrackingAnonymized')")), t).
Proof.
  intros En Kind Null. unfold track. rewrite En.
  destruct (isUserUpdatedEvent payload) eqn:Up.
  - by destruct (get payload "properties").
  - destruct Kind as [? | Ve]; [done |]. rewrite Ve.
    by destruct (get payload "properties").
Qed.

Lemma redacted_event_without_properties_throws_witness :
  tracking_disabled Sample.enabled = false ∧
  isUserUpdatedEvent Fixture.bare_user_updated = true ∧
  nullish (get Fixture.bare_user_updated "properties") = true ∧
  track Sample.sdk_accepting Sample.enabled Fixture.bare_user_updated []
    = (Throw (type_error
                "Cannot read properties of undefined (reading 'isTrackingAnonymized')"),
       []).
Proof.
  refine (conj eq_refl (conj eq_refl (conj eq_refl _))).
  exact (redacted_event_without_properties_throws Sample.sdk_accepting
           Sample.enabled Fixture.bare_user_updated []
           eq_refl (or_introl eq_refl) eq_refl).
Defined.

(** ** More on [wrapEvent] *)



(** On success, with tracking on and an SDK that accepts the calls,
    [wrapEvent] returns what the operation resolved with. Its [.started]
    record is the payload but for the event name and the context. In the
    property bag of its [.completed] record a property returned by
    [extraProperties] wins over the payload's property of the same name,
    and every other property of the payload is kept; the other top-level
    fields of the payload are kept as well. *)
Theorem wrapEvent_completed_properties
    sdk this payload func extraProperties results derived t :
  let derive : M value :=
    match extraProperties with
    | Some f => f results
    | None => mret (VObj ∅)
    end in
  tracking_disabled this = false →
  (∀ t' call, sdk t' call = None) →
  (∀ t', (func t').1 = Ok results) →
  (∀ t', (derive t').1 = Ok derived) →
  ∃ started completed bag,
    wrapEvent sdk this payload func extraProperties t
      = (Ok results,
         (derive (func (t ++ [Sdk (SdkTrack started)])).2).2 ++
         [Sdk (SdkTrack completed)]) ∧
    (∀ k, k ≠ "event" → k ≠ "context" → started !! k = payload !! k) ∧
    completed !! "properties" = Some (VObj bag) ∧
    (∀ k v, spread derived !! k = Some v → bag !! k = Some v) ∧
    (∀ k, spread derived !! k = None →
          bag !! k = spread (get payload "properties") !! k) ∧
    (∀ k, k ≠ "event" → k ≠ "context" → k ≠ "properties" →
          completed !! k = payload !! k).
Proof.
  intros derive Enabled Accepts Resolves Derives.
  rewrite wrapEvent_run by done. rewrite Accepts.
  match goal with
  | |- context [func ?t1] =>
      pose proof (Resolves t1) as R;
      destruct (func t1) as [[results' | e'] t2] eqn:F
  end; simpl in R; [| done]. injection R as ->.
  pose proof (Derives t2) as D. fold derive.
  destruct (derive t2) as [[derived' | e'] t3] eqn:G; simpl in D; [| done].
  injection D as ->. rewrite Accepts.
  eexists _, _, _. split; [rewrite F; cbn [snd]; by rewrite G |]. split_and!.
  - intros k K1 K2. by rewrite !lookup_insert_ne.
  - rewrite !lookup_insert_ne by done. apply lookup_insert_eq.
  - intros k v Hk. by apply lookup_union_Some_l.
  - intros k Hk. by apply lookup_union_r.
  - intros k K1 K2 K3. by rewrite !lookup_insert_ne.
Qed.

Lemma wrapEvent_completed_properties_witness :
  tracking_disabled Sample.enabled = false ∧
  (wrapEvent Sample.sdk_accepting Sample.enabled Fixture.get_views_with_count
     Sample.resolving (Some Sample.count_views) []).1 = Ok Sample.views.
Proof.
  refine (conj eq_refl _).
  destruct (wrapEvent_completed_properties Sample.sdk_accepting Sample.enabled
              Fixture.get_views_with_count Sample.resolving
              (Some Sample.count_views) Sample.views
              (VObj {[ "viewsCount" := VNum 2 ]}) []
              eq_refl (fun _ _ => eq_refl) (fun _ => eq_refl) (fun _ => eq_refl))
    as (started & completed & bag & Run & _).
  rewrite Run. reflexivity.
Defined.

Example wrapEvent_derived_property_wins :
  (fun m => get m "properties")
    <$> track_messages
          (wrapEvent Sample.sdk_accepting Sample.enabled Fixture.get_views_with_count
             Sample.resolving (Some Sample.count_views) []).2
  = [VObj {[ "organizationId" := VStr "org-1";
             "viewsCount" := VNum 0;
             "error" := VStr "stale" ]};
     VObj {[ "organizationId" := VStr "org-1";
             "viewsCount" := VNum 2;
             "error" := VStr "stale" ]}].
Proof. by vm_compute. Qed.



(** When the SDK fails the [.error] event itself, that failure is thrown
    in place of the operation's, and the log line is not written: the
    trace ends with the failed call. *)
Theorem wrapEvent_report_failure_masks sdk this payload func extraProperties e e' t :
  tracking_disabled this = false →
  nullish e = false →
  (∀ t', (func t').1 = Throw e) →
  (∀ t' message,
     message !! "event" = Some (VStr (lifecycle_name this payload ".started")) →
     sdk t' (SdkTrack message) = None) →
  (∀ t' message,
     message !! "event" = Some (VStr (lifecycle_name this payload ".error")) →
     sdk t' (SdkTrack message) = Some e') →
  ∃ started error,
    started !! "event" = Some (VStr (lifecycle_name this payload ".started")) ∧
    error !! "event" = Some (VStr (lifecycle_name this payload ".error")) ∧
    wrapEvent sdk this payload func extraProperties t =
      (Throw e',
       (func (t ++ [Sdk (SdkTrack started)])).2 ++ [Sdk (SdkTrack error)]).
Proof.
  intros Enabled NotNull Rejects StartedOk ErrorFails.
  destruct (get_prop_defined e "message" NotNull) as [message Message].
  assert (∀ suffix (record : obj),
            (<["context" := VObj (lightdashContext this)]>
               (<["event" := VStr (lifecycle_name this payload suffix)]> record))
              !! "event" = Some (VStr (lifecycle_name this payload suffix))) as Named.
  { intros. rewrite lookup_insert_ne by done. apply lookup_insert_eq. }
  rewrite wrapEvent_run by done. rewrite StartedOk by apply Named.
  match goal with
  | |- context [func ?t1] =>
      pose proof (Rejects t1) as R;
      destruct (func t1) as [[results | e''] t2] eqn:F
  end; simpl in R; [done |]. injection R as ->.
  rewrite Message. rewrite ErrorFails by apply Named.
  eexists _, _. split; [apply Named |]. split; [apply Named |].
  rewrite F. reflexivity.
Qed.

Lemma wrapEvent_report_failure_masks_witness :
  tracking_disabled Sample.enabled = false ∧
  nullish Sample.boom = false ∧
  let out :=
    wrapEvent
      (Sample.sdk_failing (lifecycle_name Sample.enabled Sample.get_views ".error")
         Fixture.timeout)
      Sample.enabled Sample.get_views (Sample.rejecting Sample.boom) None [] in
  out.1 = Throw Fixture.timeout.
Proof.
  refine (conj eq_refl (conj eq_refl _)).
  destruct (wrapEvent_report_failure_masks
              (Sample.sdk_failing
                 (lifecycle_name Sample.enabled Sample.get_views ".error")
                 Fixture.timeout)
              Sample.enabled Sample.get_views (Sample.rejecting Sample.boom) None
              Sample.boom Fixture.timeout []
              eq_refl eq_refl (fun _ => eq_refl)
              (fun t' message =>
                 sdk_failing_miss
                   (lifecycle_name Sample.enabled Sample.get_views ".error")
                   (lifecycle_name Sample.enabled Sample.get_views ".started")
                   Fixture.timeout t' message eq_refl)
              (fun t' message => sdk_failing_hit _ Fixture.timeout t' message))
    as (started & error & _ & _ & Run).
  cbv zeta. rewrite Run. reflexivity.
Defined.

(** When the operation rejects with undefined or null, reading the
    failure's message throws: [wrapEvent] rejects with a TypeError, and
    nothing follows the operation in the trace (no [.error] event, no log
    line). *)
Theorem wrapEvent_nullish_failure sdk this payload func extraProperties e t :
  (∀ t' call, sdk t' call = None) →
  (∀ t', (func t').1 = Throw e) →
  nullish e = true →
  ∃ t1,
    (t1 = t ∨ ∃ started, t1 = t ++ [Sdk (SdkTrack started)]) ∧
    wrapEvent sdk this payload func extraProperties t =
      (Throw (type_error ("Cannot read properties of " +:+ to_string e +:+
                          " (reading 'message')")),
       (func t1).2).
Proof.
  intros Accepts Rejects Null.
  destruct (tracking_disabled this) eqn:Dis.
  - exists t. split; [by left |].
    unfold wrapEvent, try_catch. cbv [mbind M_bind].
    rewrite track_disabled by done.
    pose proof (Rejects t) as R.
    destruct (func t) as [[results | e''] t2]; simpl in R; [done |].
    injection R as ->. by destruct e.
  - eexists. split; [right; by eexists |].
    rewrite wrapEvent_run by done. rewrite Accepts.
    match goal with
    | |- context [func ?t1] =>
        pose proof (Rejects t1) as R;
        destruct (func t1) as [[results | e''] t2] eqn:F
    end; simpl in R; [done |]. injection R as ->.
    rewrite F. by destruct e.
Qed.

Lemma wrapEvent_nullish_failure_witness :
  nullish VNull = true ∧
  (wrapEvent Sample.sdk_accepting Sample.enabled Sample.get_views
     (Sample.rejecting VNull) None []).1
    = Throw (type_error "Cannot read properties of null (reading 'message')").
Proof.
  refine (conj eq_refl _).
  destruct (wrapEvent_nullish_failure Sample.sdk_accepting Sample.enabled
              Sample.get_views (Sample.rejecting VNull) None VNull []
              (fun _ _ => eq_refl) (fun _ => eq_refl) eq_refl)
    as (t1 & _ & Run).
  rewrite Run. reflexivity.
Defined.

(** ** More on request classification *)

Lemma toLowerCase_empty s : toLowerCase s = "" → s = "".
Proof. by destruct s. Qed.

Section MoreContextFacts.
Variable LightdashRequestMethodHeader : string.
Variable getRequestMethod : option string → string.
Variables RequestMethod_CLI RequestMethod_CLI_CI RequestMethod_UNKNOWN : string.
Variable QueryExecutionContext : list (string * string).

Local Notation fromHeader :=
  (getContextFromHeader LightdashRequestMethodHeader getRequestMethod
     RequestMethod_CLI RequestMethod_CLI_CI RequestMethod_UNKNOWN
     QueryExecutionContext).
Local Notation fromQueryOrHeader :=
  (getContextFromQueryOrHeader LightdashRequestMethodHeader getRequestMethod
     RequestMethod_CLI RequestMethod_CLI_CI RequestMethod_UNKNOWN
     QueryExecutionContext).

(** The loop only looks at the query value up to letter case. *)
Lemma match_context_lower entries c1 c2 :
  toLowerCase c1 = toLowerCase c2 →
  match_context entries c1 = match_context entries c2.
Proof.
  intros L. induction entries as [| [k v] rest IH]; simpl; [done |].
  by rewrite L, IH.
Qed.

Lemma header_context_in_enum req value :
  fromHeader req = Some value → ∃ key, (key, value) ∈ QueryExecutionContext.
Proof.
  unfold getContextFromHeader.
  repeat match goal with
         | |- context [String.eqb ?a ?b] => destruct (String.eqb a b)
         end;
    try discriminate; intros M; eexists; by apply enum_member_entry.
Qed.

(** A query parameter that is not a string (repeated, nested or absent)
    is ignored: the header decides, and no warning is written. *)
Theorem non_string_query_falls_back req t :
  (∀ s, query req !! "context" ≠ Some (QString s)) →
  getContextFromQueryOrHeader LightdashRequestMethodHeader getRequestMethod
    RequestMethod_CLI RequestMethod_CLI_CI RequestMethod_UNKNOWN
    QueryExecutionContext req t
  = (Ok (getContextFromHeader LightdashRequestMethodHeader getRequestMethod
           RequestMethod_CLI RequestMethod_CLI_CI RequestMethod_UNKNOWN
           QueryExecutionContext req), t).
Proof.
  intros NotString. unfold getContextFromQueryOrHeader.
  destruct (query req !! "context") as [[s | items | fields] |]; try done.
  by destruct (NotString s).
Qed.

(** A non-empty query value that equals some enum value up to letter case
    is answered with an enum value in the enum's own spelling, without a
    warning; and that answer, sent back as the query value of any request,
    is returned unchanged. *)
Theorem query_context_is_canonical req context key known t :
  query req !! "context" = Some (QString context) →
  context ≠ "" →
  (key, known) ∈ QueryExecutionContext →
  toLowerCase known = toLowerCase context →
  ∃ value,
    fromQueryOrHeader req t = (Ok (Some value), t) ∧
    (∃ key', (key', value) ∈ QueryExecutionContext) ∧
    toLowerCase value = toLowerCase context ∧
    ∀ req' t', query req' !! "context" = Some (QString value) →
               fromQueryOrHeader req' t' = (Ok (Some value), t').
Proof.
  intros Q Ne In Lower.
  destruct (match_context QueryExecutionContext context) as [value |] eqn:Mc.
  - exists value. destruct (match_context_some _ _ _ Mc) as (L & In').
    assert (∀ c req' t', c ≠ "" → query req' !! "context" = Some (QString c) →
              match_context QueryExecutionContext c = Some value →
              fromQueryOrHeader req' t' = (Ok (Some value), t')) as Run.
    { intros c req' t' Nc Q' M'. unfold getContextFromQueryOrHeader.
      apply String.eqb_neq in Nc. by rewrite Q', Nc, M'. }
    split_and!; [by apply (Run context) | done | done |].
    intros req' t' Q'. apply (Run value); [| done |].
    + intros ->. apply Ne. apply toLowerCase_empty. by rewrite <- L.
    + by rewrite (match_context_lower _ value context L).
  - exfalso. rewrite match_context_none in Mc. by apply (Mc key known).
Qed.

(** Classification never throws and issues no SDK call or log line: it
    adds nothing to the trace, or one console warning. Its answer is
    undefined or one of the enum's values. *)
Theorem query_classification_is_closed req t :
  ∃ answer added,
    fromQueryOrHeader req t = (Ok answer, t ++ added) ∧
    (added = [] ∨ ∃ args, added = [ConsoleWarn args]) ∧
    ∀ value, answer = Some value → ∃ key, (key, value) ∈ QueryExecutionContext.
Proof.
  pose proof (header_context_in_enum req) as Header.
  unfold getContextFromQueryOrHeader.
  destruct (query req !! "context") as [[s | items | fields] |];
    try (exists (fromHeader req), []; rewrite app_nil_r; by eauto).
  destruct (String.eqb s ""); simpl negb; cbv iota;
    [exists (fromHeader req), []; rewrite app_nil_r; by eauto |].
  destruct (match_context QueryExecutionContext s) as [value |] eqn:Mc.
  - exists (Some value), []. rewrite app_nil_r. split_and!; [done | by left |].
    intros v [= <-]. by destruct (match_context_some _ _ _ Mc) as (_ & In).
  - eexists (fromHeader req), [_]. split_and!; [done | right; by eexists | done].
Qed.
End MoreContextFacts.

Lemma non_string_query_falls_back_witness :
  getContextFromQueryOrHeader "Lightdash-Request-Method" Sample.request_method
    "CLI" "CLI_CI" "UNKNOWN" Sample.contexts
    (Sample.request (Some (QArray ["cli"; "api"])) (Some "WEB_APP")) []
    = (Ok None, []).
Proof.
  apply (non_string_query_falls_back "Lightdash-Request-Method"
           Sample.request_method "CLI" "CLI_CI" "UNKNOWN" Sample.contexts
           (Sample.request (Some (QArray ["cli"; "api"])) (Some "WEB_APP")) []).
  intros s H. discriminate H.
Defined.

Lemma query_context_is_canonical_witness :
  query (Sample.request (Some (QString "DASHBOARDVIEW")) None) !! "context"
    = Some (QString "DASHBOARDVIEW") ∧
  ("DASHBOARD", "dashboardView") ∈ Sample.contexts ∧
  toLowerCase "dashboardView" = toLowerCase "DASHBOARDVIEW" ∧
  ∃ value,
    getContextFromQueryOrHeader "Lightdash-Request-Method" Sample.request_method
      "CLI" "CLI_CI" "UNKNOWN" Sample.contexts
      (Sample.request (Some (QString "DASHBOARDVIEW")) None) []
      = (Ok (Some value), []).
Proof.
  refine (conj eq_refl (conj (list_elem_of_here _ _) (conj eq_refl _))).
  destruct (query_context_is_canonical "Lightdash-Request-Method"
              Sample.request_method "CLI" "CLI_CI" "UNKNOWN" Sample.contexts
              (Sample.request (Some (QString "DASHBOARDVIEW")) None)
              "DASHBOARDVIEW" "DASHBOARD" "dashboardView" []
              eq_refl ltac:(discriminate) (list_elem_of_here _ _) eq_refl)
    as (value & Run & _).
  by exists value.
Defined.

(** ** The constructed dispatcher *)

(** A dispatcher built by the constructor: every call it issues carries an
    [app] context whose name is [lightdash_server]; the site URL is the
    configured one in cloud beta mode and null in every other mode; the
    install id is the environment's when that is set and not empty, the
    generated identifier otherwise. *)
Theorem constructed_context_contents
    VERSION CLOUD_BETA INSTALL_TYPE_UNKNOWN config install_id install_type uuid
    sdk payload t :
  let this :=
    new VERSION CLOUD_BETA INSTALL_TYPE_UNKNOWN config install_id install_type uuid in
  ∀ call,
    call ∈ issued (identify sdk this payload) t ++
           issued (track sdk this payload) t ++
           issued (group sdk this payload) t →
    ∃ app,
      call_message call !! "context" = Some (VObj {[ "app" := VObj app ]}) ∧
      app !! "name" = Some (VStr "lightdash_server") ∧
      app !! "siteUrl"
        = Some (if String.eqb (mode config) CLOUD_BETA then siteUrl config
                else VNull) ∧
      app !! "installId"
        = Some (VStr (match install_id with
                      | Some s => if String.eqb s "" then uuid else s
                      | None => uuid
                      end)).
Proof.
  intros this call In. eexists.
  split; [exact (issued_context sdk this payload t call In) |].
  unfold app_obj. split_and!;
    rewrite ?lookup_insert_eq; rewrite ?lookup_insert_ne by done;
    rewrite ?lookup_insert_eq; rewrite ?lookup_insert_ne by done;
    rewrite ?lookup_insert_eq; rewrite ?lookup_insert_ne by done;
    rewrite ?lookup_insert_eq; rewrite ?lookup_insert_ne by done;
    rewrite ?lookup_insert_eq; rewrite ?lookup_insert_ne by done;
    rewrite ?lookup_insert_eq; done.
Qed.

Lemma constructed_context_contents_witness :
  ∃ app,
    call_message (SdkTrack (<["context" := VObj (lightdashContext Fixture.cloud)]>
                              (<["event" := namespaced_event Fixture.cloud
                                              Sample.password_updated]>
                                 Sample.password_updated))) !! "context"
      = Some (VObj {[ "app" := VObj app ]}) ∧
    app !! "siteUrl" = Some (VStr "https://app.lightdash.cloud") ∧
    app !! "installId" = Some (VStr "install-42").
Proof.
  destruct (constructed_context_contents "0.1484.5" "cloud_beta" "unknown"
              {| mode := "cloud_beta";
                 siteUrl := VStr "https://app.lightdash.cloud";
                 rudder := {| writeKey := VStr "write-key" |} |}
              (Some "install-42") (Some "heroku")
              "3f2c9a52-6a0e-4c55-9d42-0d7c1f3b8e11"
              Sample.sdk_accepting Sample.password_updated []
              (SdkTrack (<["context" := VObj (lightdashContext Fixture.cloud)]>
                           (<["event" := namespaced_event Fixture.cloud
                                           Sample.password_updated]>
                              Sample.password_updated))))
    as (app & Ctx & _ & Url & Id).
  - apply elem_of_app. right. apply elem_of_app. left.
    apply list_elem_of_here.
  - by exists app.
Defined.

(** The class-level anonymous id and the install id of the context both
    come from LIGHTDASH_INSTALL_ID when it is set and not empty, and then
    agree; when it is not, each is the identifier its own call of
    [uuidv4] returned. *)
Theorem anonymous_id_and_install_id
    VERSION CLOUD_BETA INSTALL_TYPE_UNKNOWN config install_id install_type
    uuid_class uuid_instance :
  let context_id :=
    installId (lightdashContext_app
                 (new VERSION CLOUD_BETA INSTALL_TYPE_UNKNOWN config
                      install_id install_type uuid_instance)) in
  (∀ s, install_id = Some s → s ≠ "" →
        anonymousId install_id uuid_class = s ∧ context_id = s) ∧
  (install_id = None ∨ install_id = Some "" →
   anonymousId install_id uuid_class = uuid_class ∧ context_id = uuid_instance).
Proof.
  cbv zeta. unfold anonymousId, new, env_or. simpl. split.
  - intros s -> Ne. apply String.eqb_neq in Ne. by rewrite Ne.
  - by intros [-> | ->].
Qed.

(** ** The download limit label *)

(** [parseAnalyticsLimit] answers with one of the three labels the
    download events allow: [all] exactly for ['all'] and null, [results]
    exactly for ['table'] and undefined, and [custom] for everything else,
    every number among them. *)
Theorem parseAnalyticsLimit_labels limit :
  parseAnalyticsLimit limit ∈ ["all"; "results"; "custom"] ∧
  (parseAnalyticsLimit limit = "all" ↔ limit = VStr "all" ∨ limit = VNull) ∧
  (parseAnalyticsLimit limit = "results" ↔ limit = VStr "table" ∨ limit = VUndef) ∧
  (∀ n, limit = VNum n → parseAnalyticsLimit limit = "custom").
Proof.
  split_and!.
  - destruct limit; simpl; try set_solver.
    destruct (String.eqb s "all"); [set_solver |].
    destruct (String.eqb s "table"); set_solver.
  - destruct limit; simpl; try (split; [discriminate | by intros [? | ?]]).
    + split; [by right | done].
    + destruct (String.eqb s "all") eqn:A.
      * apply String.eqb_eq in A. subst. split; [by left | done].
      * apply String.eqb_neq in A.
        destruct (String.eqb s "table");
          (split; [discriminate | intros [[= ->] | ?]; done]).
  - destruct limit; simpl; try (split; [discriminate | by intros [? | ?]]).
    + split; [by right | done].
    + destruct (String.eqb s "all") eqn:A.
      * apply String.eqb_eq in A. subst.
        split; [discriminate | intros [[=] | ?]; done].
      * destruct (String.eqb s "table") eqn:T.
        -- apply String.eqb_eq in T. subst. split; [by left | done].
        -- apply String.eqb_neq in T.
           split; [discriminate | intros [[= ->] | ?]; done].
  - by intros n ->.
Qed.

Lemma parseAnalyticsLimit_labels_witness :
  parseAnalyticsLimit (VNum 0) = "custom" ∧
  parseAnalyticsLimit (VStr "ALL") = "custom" ∧
  parseAnalyticsLimit VNull = "all".
Proof.
  destruct (parseAnalyticsLimit_labels (VNum 0)) as (_ & _ & _ & Number).
  destruct (parseAnalyticsLimit_labels VNull) as (_ & All & _).
  split; [exact (Number 0%Z eq_refl) |].
  split; [reflexivity |].
  apply All. by right.
Defined.

Lemma anonymous_id_and_install_id_witness :
  anonymousId (Some "install-42") "1b9d6bcd-bbfd-4b2d-9b5d-ab8dfbbd4bed"
    = "install-42" ∧
  installId (lightdashContext_app Fixture.cloud) = "install-42".
Proof.
  apply (anonymous_id_and_install_id "0.1484.5" "cloud_beta" "unknown"
           {| mode := "cloud_beta";
              siteUrl := VStr "https://app.lightdash.cloud";
              rudder := {| writeKey := VStr "write-key" |} |}
           (Some "install-42") (Some "heroku")
           "1b9d6bcd-bbfd-4b2d-9b5d-ab8dfbbd4bed"
           "3f2c9a52-6a0e-4c55-9d42-0d7c1f3b8e11").
  - reflexivity.
  - discriminate.
Defined.

Lemma track_keeps_other_fields_witness :
  length (forwarded (track Sample.sdk_accepting Sample.enabled
                       (Sample.user_updated true)) []) = 1 ∧
  Forall (fun message : obj =>
            message !! "event" = Some (VStr "lightdash_server.user.updated") ∧
            message !! "userId" = Some (VStr "user-1"))
         (forwarded (track Sample.sdk_accepting Sample.enabled
                       (Sample.user_updated true)) []).
Proof.
  split; [reflexivity |]. apply Forall_forall. intros message In.
  destruct (track_keeps_other_fields Sample.sdk_accepting Sample.enabled
              (Sample.user_updated true) [] message In) as [Ev Fr].
  split; [exact Ev |]. by rewrite Fr.
Defined.

Lemma every_call_carries_context_witness :
  length (issued (identify Sample.sdk_accepting Sample.enabled
                    (<["context" := VStr "mine"]> Sample.identity)) []) = 1 ∧
  Forall (fun call =>
            call_message call !! "context"
              = Some (VObj (lightdashContext Sample.enabled)))
         (issued (identify Sample.sdk_accepting Sample.enabled
                    (<["context" := VStr "mine"]> Sample.identity)) []).
Proof.
  split; [reflexivity |]. apply Forall_forall. intros call In.
  apply (every_call_carries_context Sample.sdk_accepting Sample.enabled
           (<["context" := VStr "mine"]> Sample.identity) []).
  apply elem_of_app. by left.
Defined.

Lemma query_classification_is_closed_witness :
  ∃ answer added,
    getContextFromQueryOrHeader "Lightdash-Request-Method" Sample.request_method
      "CLI" "CLI_CI" "UNKNOWN" Sample.contexts
      (Sample.request (Some (QString "nonsense")) (Some "CLI_CI")) []
      = (Ok answer, added) ∧
    (length added ≤ 1)%nat.
Proof.
  destruct (query_classification_is_closed "Lightdash-Request-Method"
              Sample.request_method "CLI" "CLI_CI" "UNKNOWN" Sample.contexts
              (Sample.request (Some (QString "nonsense")) (Some "CLI_CI")) [])
    as (answer & added & Run & Shape & _).
  exists answer, added. split; [exact Run |].
  destruct Shape as [-> | [args ->]]; simpl; lia.
Defined.
